(** * post_receive_email: a shallow embedding of the git post-receive mail hook

    The hook reads update records from standard input, classifies each
    one, queries git for commit metadata, composes an email and hands it
    to an SMTP session.  Everything the script does to the outside world
    (spawning git, opening and writing the log file, talking to the SMTP
    server, reading the clock) is threaded through an explicit world
    state inside a state-and-exception monad; the answers of the outside
    world are read from an environment record. *)

From Stdlib Require Import ZArith String Ascii List Bool Lia DecimalString
  DecimalPos.
From stdpp Require Import base option strings gmap.
Import ListNotations.
Local Open Scope string_scope.
Local Open Scope Z_scope.

(** ** Python string primitives

    Strings are sequences of code points below 256. *)

Module Py.

Definition code (c : ascii) : nat := nat_of_ascii c.

(** [str.isspace] on one code point below 256. *)
Definition is_space (c : ascii) : bool :=
  let n := code c in
  ((9 <=? n) && (n <=? 13) || (28 <=? n) && (n <=? 32)
   || (n =? 133) || (n =? 160))%nat.

(** [s.split(sep)] for a separator class: every separator code point
    closes a field, so empty fields are kept. *)
Fixpoint fields (sep : ascii -> bool) (s : string) : list string :=
  match s with
  | EmptyString => [EmptyString]
  | String c r =>
      if sep c then EmptyString :: fields sep r
      else match fields sep r with
           | w :: ws => String c w :: ws
           | [] => [String c EmptyString]
           end
  end.

Definition nonempty (s : string) : bool :=
  match s with EmptyString => false | _ => true end.

(** [s.split()]: runs of whitespace separate, no empty field survives. *)
Definition split (s : string) : list string :=
  List.filter nonempty (fields is_space s).

(** [s.split(c)] for a one-character separator. *)
Definition split_on (c : ascii) (s : string) : list string :=
  fields (Ascii.eqb c) s.

(** [l[-1]] on a list of strings known to be non-empty. *)
Definition last_field (l : list string) : string := List.last l EmptyString.

(** [s[:n]]. *)
Fixpoint take (n : nat) (s : string) : string :=
  match n, s with
  | S k, String c r => String c (take k r)
  | _, _ => EmptyString
  end.

(** [s[:-1]]. *)
Fixpoint drop_last (s : string) : string :=
  match s with
  | EmptyString => EmptyString
  | String c EmptyString => EmptyString
  | String c r => String c (drop_last r)
  end.

(** [s[-1]] when [s] is not empty. *)
Fixpoint last_char (s : string) : option ascii :=
  match s with
  | EmptyString => None
  | String c EmptyString => Some c
  | String _ r => last_char r
  end.

(** [s.startswith(p)]. *)
Fixpoint startswith (s p : string) {struct p} : bool :=
  match p, s with
  | EmptyString, _ => true
  | String c p', String d s' => Ascii.eqb c d && startswith s' p'
  | String _ _, EmptyString => false
  end.

(** [sep.join(l)]. *)
Fixpoint join (sep : string) (l : list string) : string :=
  match l with
  | [] => EmptyString
  | [x] => x
  | x :: r => x +:+ sep +:+ join sep r
  end.

(** [s.replace(c, by)] for a one-character pattern. *)
Fixpoint replace_char (c : ascii) (by_ : string) (s : string) : string :=
  match s with
  | EmptyString => EmptyString
  | String d r =>
      if Ascii.eqb d c then by_ +:+ replace_char c by_ r
      else String d (replace_char c by_ r)
  end.

(** [str(n)] for an integer. *)
Definition str_of_Z (z : Z) : string :=
  NilZero.string_of_int (Z.to_int z).

(** [s.strip()]. *)
Fixpoint lstrip (s : string) : string :=
  match s with
  | String c r => if is_space c then lstrip r else s
  | EmptyString => EmptyString
  end.

Fixpoint rstrip (s : string) : string :=
  match s with
  | EmptyString => EmptyString
  | String c r =>
      match rstrip r with
      | EmptyString => if is_space c then EmptyString else String c EmptyString
      | r' => String c r'
      end
  end.

Definition strip (s : string) : string := rstrip (lstrip s).

Definition digit_val (c : ascii) : option N :=
  let n := code c in
  if ((48 <=? n) && (n <=? 57))%nat then Some (N.of_nat (n - 48)) else None.

(** The digits of an integer literal after its sign: decimal digits,
    with single underscores allowed between two digits.  [prev] tells
    whether the previous code point was a digit. *)
Fixpoint int_body (prev : bool) (acc : N) (s : string) : option N :=
  match s with
  | EmptyString => if prev then Some acc else None
  | String c r =>
      match digit_val c with
      | Some d => int_body true (10 * acc + d)%N r
      | None =>
          if Ascii.eqb c "_" && prev
          then match r with
               | EmptyString => None
               | String c' _ =>
                   match digit_val c' with
                   | Some _ => int_body false acc r
                   | None => None
                   end
               end
          else None
      end
  end.

(** [int(s)]: [None] stands for [ValueError]. *)
Definition int (s : string) : option Z :=
  match strip s with
  | String "-" r => option_map (fun n => - Z.of_N n) (int_body false 0%N r)
  | String "+" r => option_map Z.of_N (int_body false 0%N r)
  | r => option_map Z.of_N (int_body false 0%N r)
  end.

(** [re.split(' *, *| +', s)].  [delimiter s] is the length of the
    match of the pattern at the start of [s], zero when there is none:
    the first alternative needs a comma right after the run of spaces,
    the second one at least one space.  [skip] counts the code points
    of the current match still to be passed over. *)
Fixpoint spaces (s : string) : nat :=
  match s with
  | String " " r => S (spaces r)
  | _ => O
  end.

Fixpoint drop (n : nat) (s : string) : string :=
  match n, s with
  | S k, String _ r => drop k r
  | _, _ => s
  end.

Definition delimiter (s : string) : nat :=
  let n := spaces s in
  match drop n s with
  | String "," r => (n + 1 + spaces r)%nat
  | _ => n
  end.

Fixpoint re_split_from (skip : nat) (s : string) : list string :=
  match s with
  | EmptyString => [EmptyString]
  | String c r =>
      match skip with
      | S k => re_split_from k r
      | O =>
          match delimiter s with
          | S k => EmptyString :: re_split_from k r
          | O =>
              match re_split_from 0 r with
              | w :: ws => String c w :: ws
              | [] => [String c EmptyString]
              end
          end
      end
  end.

Definition re_split_recipients (s : string) : list string :=
  re_split_from 0 s.

(** [repr(s)] of a string. *)
Definition hex_digit (d : nat) : ascii :=
  if (d <? 10)%nat then ascii_of_nat (48 + d) else ascii_of_nat (87 + d).

Definition printable (c : ascii) : bool :=
  let n := code c in
  ((32 <=? n) && (n <=? 126) || (161 <=? n) && negb (n =? 173))%nat.

Fixpoint contains_char (c : ascii) (s : string) : bool :=
  match s with
  | EmptyString => false
  | String d r => Ascii.eqb d c || contains_char c r
  end.

Fixpoint repr_body (quote : ascii) (s : string) : string :=
  match s with
  | EmptyString => EmptyString
  | String c r =>
      let rest := repr_body quote r in
      let n := code c in
      if Ascii.eqb c "\" then String "\" (String "\" rest)
      else if Ascii.eqb c quote then String "\" (String c rest)
      else if (n =? 9)%nat then String "\" (String "t" rest)
      else if (n =? 10)%nat then String "\" (String "n" rest)
      else if (n =? 13)%nat then String "\" (String "r" rest)
      else if printable c then String c rest
      else String "\" (String "x" (String (hex_digit (n / 16))
                                     (String (hex_digit (n mod 16)) rest)))
  end.

Definition dquote : ascii := ascii_of_nat 34.

Definition repr (s : string) : string :=
  let quote : ascii :=
    if contains_char "'" s && negb (contains_char dquote s) then dquote
    else "'"%char in
  String quote (repr_body quote s) +:+ String quote EmptyString.

(** [tmpl.format(args...)] for templates that use only the automatic
    field [{}] and the escapes [{{] and [}}].  [None] stands for the
    exception Python raises on an unbalanced brace or on too few
    arguments; surplus arguments are ignored, as in Python. *)
Inductive brace := Plain | AfterOpen | AfterClose.

Fixpoint format_from (st : brace) (tmpl : string) (args : list string)
  : option string :=
  match tmpl with
  | EmptyString => match st with Plain => Some EmptyString | _ => None end
  | String c r =>
      match st with
      | Plain =>
          if Ascii.eqb c "{" then format_from AfterOpen r args
          else if Ascii.eqb c "}" then format_from AfterClose r args
          else option_map (String c) (format_from Plain r args)
      | AfterOpen =>
          if Ascii.eqb c "{"
          then option_map (String "{") (format_from Plain r args)
          else if Ascii.eqb c "}"
          then match args with
               | a :: args' =>
                   option_map (fun t => a +:+ t) (format_from Plain r args')
               | [] => None
               end
          else None
      | AfterClose =>
          if Ascii.eqb c "}"
          then option_map (String "}") (format_from Plain r args)
          else None
      end
  end.

Definition format (tmpl : string) (args : list string) : option string :=
  format_from Plain tmpl args.

End Py.

(** ** Values, exceptions and the outside world *)

(** The values the configuration dictionary holds. *)
Inductive PyVal :=
| PStr (s : string)
| PBool (b : bool)
| PInt (z : Z)
| PList (l : list string).

(** Python truthiness. *)
Definition truthy (v : PyVal) : bool :=
  match v with
  | PStr s => Py.nonempty s
  | PBool b => b
  | PInt z => negb (z =? 0)
  | PList l => match l with [] => false | _ => true end
  end.

(** The exceptions the script and the calls it makes can raise. *)
Inductive PyExc :=
| Exception_ (msg : string)
| RuntimeError (msg : string)
| ValueError (msg : string)
| IndexError (msg : string)
| KeyError (key : string)
| TypeError (msg : string)
| CalledProcessError (argv : list string) (code : Z)
| TimeoutExpired (argv : list string)
| OSError (path : string)
| SMTPException (msg : string).

Inductive Result (A : Type) :=
| Ok (a : A)
| Raise (e : PyExc).
Arguments Ok {A} a.
Arguments Raise {A} e.

Record EmailMessage := {
  content : string;
  From : string;
  Reply_To : string;
  To : string;
  Subject : string
}.

(** What the script does to the outside world, in order. *)
Inductive Event :=
| EvOpen (path : string)
| EvWrite (path text : string)
| EvClose (path : string)
| EvConnect (host : string) (port : Z)
| EvLogin (user password : string)
| EvSendMessage (email : EmailMessage)
| EvQuit.

Record World := {
  trace : list Event;
  ticks : nat
}.

Definition emit (ev : Event) (w : World) : World :=
  {| trace := trace w ++ [ev]; ticks := ticks w |}.

Definition tick (w : World) : World :=
  {| trace := trace w; ticks := S (ticks w) |}.

(** The emails handed to the SMTP server so far. *)
Definition sent (w : World) : list EmailMessage :=
  omap (fun ev => match ev with EvSendMessage m => Some m | _ => None end)
       (trace w).

(** What a finished child process reports. [over_one_second] tells
    whether it ran for longer than the one second [wait(timeout=1)]
    grants. *)
Record Completed := {
  returncode : Z;
  stdout : string;
  over_one_second : bool
}.

(** The answers of the outside world during one run of the hook. *)
Record Env := {
  run : list string -> Completed;
  stdin_lines : list string;
  strftime : nat -> string;
  formatdate : nat -> string;
  print_exc : PyExc -> string;
  open_append : string -> option PyExc;
  smtp_connect : string -> Z -> option PyExc;
  smtp_login : string -> string -> option PyExc;
  smtp_send_message : EmailMessage -> option PyExc
}.

(** ** The monad of the script: world state and exceptions *)

Definition M (A : Type) : Type := World -> Result A * World.

#[global] Instance M_ret : MRet M := fun A a w => (Ok a, w).

#[global] Instance M_bind : MBind M := fun A B f m w =>
  match m w with
  | (Ok a, w') => f a w'
  | (Raise e, w') => (Raise e, w')
  end.

Definition raise {A} (e : PyExc) : M A := fun w => (Raise e, w).

Definition do_emit (ev : Event) : M unit := fun w => (Ok tt, emit ev w).

(** [try: body except: handler]: a bare [except] catches everything. *)
Definition try_except {A} (body : M A) (handler : PyExc -> M A) : M A :=
  fun w =>
    match body w with
    | (Raise e, w') => handler e w'
    | r => r
    end.

(** [try: body finally: cleanup], as a context manager's exit runs. *)
Definition finally {A} (body : M A) (cleanup : M unit) : M A :=
  fun w =>
    match body w with
    | (r, w') =>
        match cleanup w' with
        | (Ok _, w'') => (r, w'')
        | (Raise e, w'') => (Raise e, w'')
        end
    end.

Definition lift_option {A} (o : option A) (e : PyExc) : M A :=
  match o with Some a => mret a | None => raise e end.

(** An outside call that either succeeds or raises. *)
Definition attempt (o : option PyExc) : M unit :=
  match o with None => mret tt | Some e => raise e end.

Fixpoint for_each {A} (l : list A) (body : A -> M unit) : M unit :=
  match l with
  | [] => mret tt
  | x :: r => body x;; for_each r body
  end.

(** ** The script *)

Definition nl : string := String (ascii_of_nat 10) EmptyString.

Definition MAILINGLIST := "hooks.mailinglist".
Definition EMAILPREFIX := "hooks.emailprefix".
Definition SMTP_HOST := "hooks.smtp-host".
Definition SMTP_PORT := "hooks.smtp-port".
Definition SMTP_SENDER := "hooks.smtp-sender".
Definition SMTP_SENDER_PASSWORD := "hooks.smtp-sender-password".
Definition POST_RECEIVE_LOGFILE := "hooks.post-receive-logfile".
Definition DEBUG := "hooks.debug".

(** [str(v)] of a configuration value. *)
Definition py_str (v : PyVal) : string :=
  match v with
  | PStr s => s
  | PBool true => "True"
  | PBool false => "False"
  | PInt z => Py.str_of_Z z
  | PList l => "[" +:+ Py.join ", " (List.map Py.repr l) +:+ "]"
  end.

(** [config[key]]. *)
Definition getitem (config : gmap string PyVal) (key : string) : M PyVal :=
  lift_option (config !! key) (KeyError key).

Definition format (tmpl : string) (args : list string) : M string :=
  lift_option (Py.format tmpl args) (IndexError "format").

Record Mailer := {
  smtp_host : string;
  smtp_port : Z;
  sender : string;
  sender_password : string;
  recipients : list string
}.

Definition is_dummy_rev (rev : string) : bool :=
  String.eqb rev "0000000000000000000000000000000000000000".

Definition short_hash (rev : string) : string := Py.take 7 rev.

Definition escape_git_fmt_str (fmt : string) : string :=
  Py.replace_char "%" "%%" fmt.

Definition parse_post_receive_line (l : string) : list string := Py.split l.

Definition ref_type_name (ref : string) : string * string :=
  let name := Py.last_field (Py.split_on "/" ref) in
  if Py.startswith ref "refs/heads/" then ("branch", name)
  else if Py.startswith ref "refs/tags/" then ("tag", name)
  else ("unknown", name).

Section Hook.

Variable env : Env.

(** [subprocess.check_output(argv)]: the output, or
    [CalledProcessError] when the exit status is not zero. *)
Definition check_output (argv : list string) : M string :=
  let p := run env argv in
  if returncode p =? 0 then mret (stdout p)
  else raise (CalledProcessError argv (returncode p)).

Definition time_strftime : M string :=
  fun w => (Ok (strftime env (ticks w)), tick w).

Definition email_formatdate : M string :=
  fun w => (Ok (formatdate env (ticks w)), tick w).

(** [Mailer.send] *)
Definition Mailer_send (self : Mailer) (subject reply_to message : string)
  : M unit :=
  match recipients self with
  | [] => mret tt
  | _ =>
      let email := {| content := message;
                      From := sender self;
                      Reply_To := reply_to;
                      To := Py.join ", " (recipients self);
                      Subject := subject |} in
      do_emit (EvConnect (smtp_host self) (smtp_port self));;
      attempt (smtp_connect env (smtp_host self) (smtp_port self));;
      finally
        (do_emit (EvLogin (sender self) (sender_password self));;
         attempt (smtp_login env (sender self) (sender_password self));;
         do_emit (EvSendMessage email);;
         attempt (smtp_send_message env email))
        (do_emit EvQuit)
  end.

(** The [default] argument is accepted and never looked at. *)
Definition git_config_get (name : string) (default : PyVal) : M string :=
  let p := run env ["git"; "config"; "--get"; name] in
  mret (Py.drop_last (stdout p)).

Definition git_show (hash : string) : M string :=
  check_output ["git"; "show"; hash].

Definition git_show_format_str (rev fmt : string) : M string :=
  a ← format "--pretty=format:{}" [fmt];
  check_output ["git"; "show"; a; "-s"; rev].

Definition git_rev_list_range_pretty (old_rev new_rev : string) : M string :=
  r ← format "{}..{}" [old_rev; new_rev];
  s ← check_output ["git"; "rev-list"; "--pretty"; r];
  mret (Py.drop_last s).

Definition commit_subject (rev : string) : M string :=
  git_show_format_str rev "%s".

Definition commiter_email (rev : string) : M string :=
  git_show_format_str rev "%ce".

Definition process_new_branch (rev name : string) (mailer : Mailer)
    (config : gmap string PyVal) : M unit :=
  prefix ← getitem config EMAILPREFIX;
  subj ← commit_subject rev;
  subject ← format "{}new branch: ({}) at commit {}: {}"
              [py_str prefix; name; short_hash rev; subj];
  reply_to ← commiter_email rev;
  fmt ← format "Commiter: %cn <%ce>
Date: %cD
New branch: {}
Commit: %H
Subject: %s
Notes:
%N" [escape_git_fmt_str name];
  message ← git_show_format_str rev fmt;
  Mailer_send mailer subject reply_to message.

Definition process_delete_branch (rev name : string) (mailer : Mailer)
    (config : gmap string PyVal) : M unit :=
  prefix ← getitem config EMAILPREFIX;
  subject ← format "{}delete branch: ({})" [py_str prefix; name];
  reply_to ← commiter_email rev;
  now ← email_formatdate;
  message ← format "Date: {}
Deleted branch: {}" [now; name];
  Mailer_send mailer subject reply_to message.

Definition process_new_tag (rev name : string) (mailer : Mailer)
    (config : gmap string PyVal) : M unit :=
  target ← format "{}^{{commit}}" [rev];
  tag_commit_rev ← git_show_format_str target "%H";
  prefix ← getitem config EMAILPREFIX;
  subj ← commit_subject tag_commit_rev;
  subject ← format "{}new tag: ({}) at commit {}: {}"
              [py_str prefix; name; short_hash tag_commit_rev; subj];
  reply_to ← commiter_email tag_commit_rev;
  message ← git_show rev;
  Mailer_send mailer subject reply_to message.

Definition process_delete_tag (rev name : string) (mailer : Mailer)
    (config : gmap string PyVal) : M unit :=
  target ← format "{}^{{commit}}" [rev];
  tag_commit_rev ← git_show_format_str target "%H";
  prefix ← getitem config EMAILPREFIX;
  subject ← format "{}delete tag: ({})" [py_str prefix; name];
  reply_to ← commiter_email tag_commit_rev;
  now ← email_formatdate;
  message ← format "Date: {}
Deleted tag: {}" [now; name];
  Mailer_send mailer subject reply_to message.

Definition process_unknown (old_rev new_rev ref_name : string)
    (config : gmap string PyVal) : M unit :=
  mret tt.

Definition is_descendant_commit (rev1 rev2 : string) : M bool :=
  let argv := ["git"; "merge-base"; "--is-ancestor"; rev1; rev2] in
  let p := run env argv in
  if over_one_second p then raise (TimeoutExpired argv)
  else if returncode p =? 0 then mret true
  else if returncode p =? 1 then mret false
  else raise (Exception_ "is_descendant_commit error").

(** number of commits in (old_rev, new_rev] *)
Definition num_commits_in_range (old_rev new_rev : string) : M Z :=
  r ← format "{}..{}" [old_rev; new_rev];
  s ← check_output ["git"; "rev-list"; "--count"; r];
  lift_option (Py.int s) (ValueError "invalid literal for int()").

Definition process_new_commits (old_rev new_rev branchname : string)
    (mailer : Mailer) (config : gmap string PyVal) : M unit :=
  n ← num_commits_in_range old_rev new_rev;
  subject ←
    (if n =? 1 then
       prefix ← getitem config EMAILPREFIX;
       subj ← commit_subject new_rev;
       format "{}({}) new commit {}: {}"
         [py_str prefix; branchname; short_hash new_rev; subj]
     else if 0 <? n then
       prefix ← getitem config EMAILPREFIX;
       subj ← commit_subject new_rev;
       format "{}({}) {} new commits {}: {}"
         [py_str prefix; branchname; Py.str_of_Z n; short_hash new_rev; subj]
     else raise (Exception_ "process 0 new commits"));
  message ← git_rev_list_range_pretty old_rev new_rev;
  reply_to ← commiter_email new_rev;
  Mailer_send mailer subject reply_to message.

Definition process_forced_reset (old_rev new_rev branchname : string)
    (mailer : Mailer) (config : gmap string PyVal) : M unit :=
  prefix ← getitem config EMAILPREFIX;
  subj ← commit_subject new_rev;
  subject ← format "{}({}) forced reset to commit {}: {}"
              [py_str prefix; branchname; short_hash new_rev; subj];
  fmt ← format "Commiter: %cn <%ce>
Date: %cD
Branch: {}
Reset to commit: %H
Subject: %s
Notes:
%N" [escape_git_fmt_str branchname];
  message ← git_show_format_str new_rev fmt;
  reply_to ← commiter_email new_rev;
  Mailer_send mailer subject reply_to message.

Definition process_forced_unknown (old_rev new_rev branchname : string)
    (mailer : Mailer) (config : gmap string PyVal) : M unit :=
  prefix ← getitem config EMAILPREFIX;
  subj ← commit_subject new_rev;
  subject ← format "{}({}) forced rewrite to commit {}: {}"
              [py_str prefix; branchname; short_hash new_rev; subj];
  fmt ← format "Commiter: %cn <%ce>
Date: %cD
Branch: {}
Most recent commit: %H
Subject: %s
Notes:
%N" [escape_git_fmt_str branchname];
  message ← git_show_format_str new_rev fmt;
  reply_to ← commiter_email new_rev;
  Mailer_send mailer subject reply_to message.

Definition process_commit_range (old_rev new_rev branchname : string)
    (mailer : Mailer) (config : gmap string PyVal) : M unit :=
  ff ← is_descendant_commit old_rev new_rev;
  if (ff : bool) then process_new_commits old_rev new_rev branchname mailer config
  else
    back ← is_descendant_commit new_rev old_rev;
    if (back : bool) then process_forced_reset old_rev new_rev branchname mailer config
    else process_forced_unknown old_rev new_rev branchname mailer config.

(** The body of the loop of [post_receive], for one line. *)
Definition post_receive_line (mailer : Mailer) (config : gmap string PyVal)
    (line : string) : M unit :=
  match parse_post_receive_line line with
  | [old_rev; new_rev; ref_name] =>
      let '(ref_type, name) := ref_type_name ref_name in
      if String.eqb ref_type "branch" then
        if is_dummy_rev old_rev then
          process_new_branch new_rev name mailer config
        else if is_dummy_rev new_rev then
          process_delete_branch old_rev name mailer config
        else process_commit_range old_rev new_rev name mailer config
      else if String.eqb ref_type "tag" then
        if is_dummy_rev old_rev then
          process_new_tag new_rev name mailer config
        else if is_dummy_rev new_rev then
          process_delete_tag old_rev name mailer config
        else mret tt
      else process_unknown old_rev new_rev ref_name config
  | _ => raise (ValueError "unpack")
  end.

Definition post_receive (mailer : Mailer) (lines : list string)
    (config : gmap string PyVal) : M unit :=
  for_each lines (post_receive_line mailer config).

(** *** Configuration *)

(** The conversions [str], [bool_from_str] and [int] that
    [get_config_variables] passes as [type_]. *)
Definition str_ (s : string) : M PyVal := mret (PStr s).

Definition bool_from_str (s : string) : M PyVal :=
  mret (match s with
        | EmptyString => PStr s
        | String c _ => PBool (negb (Py.contains_char c "fF0"))
        end).

Definition int_ (s : string) : M PyVal :=
  z ← lift_option (Py.int s) (ValueError "invalid literal for int()");
  mret (PInt z).

(** The inner functions of [get_config_variables]; the dictionary they
    assign into is passed in and handed back. *)
Definition optional (variable : string) (default : PyVal)
    (type_ : string -> M PyVal) (config : gmap string PyVal)
  : M (gmap string PyVal) :=
  v ← git_config_get variable default;
  x ← type_ v;
  mret (<[variable := x]> config).

Definition required (variable : string) (type_ : string -> M PyVal)
    (config : gmap string PyVal) : M (gmap string PyVal) :=
  v ← git_config_get variable (PStr EmptyString);
  if Py.nonempty v then
    x ← type_ v;
    mret (<[variable := x]> config)
  else raise (RuntimeError ("This script needs " +:+ variable +:+ " to work.")).

Definition recipients_of (variable : string) (config : gmap string PyVal)
  : M (gmap string PyVal) :=
  v ← git_config_get variable (PStr EmptyString);
  mret (<[variable :=
            PList (List.filter Py.nonempty (Py.re_split_recipients v))]>
          config).

(** Lines 279-280: a non-empty prefix gets a trailing space unless it
    has one.  [optional] has just stored a string under the key. *)
Definition normalize_prefix (config : gmap string PyVal)
  : M (gmap string PyVal) :=
  v ← getitem config EMAILPREFIX;
  match v with
  | PStr s =>
      if Py.nonempty s
         && negb (bool_decide (Py.last_char s = Some " "%char))
      then mret (<[EMAILPREFIX := PStr (s +:+ " ")]> config)
      else mret config
  | _ => raise (TypeError "prefix is not a string")
  end.

Definition get_config_variables : M (gmap string PyVal) :=
  config ← optional EMAILPREFIX (PStr EmptyString) str_ ∅;
  config ← normalize_prefix config;
  config ← optional DEBUG (PBool false) bool_from_str config;
  config ← optional POST_RECEIVE_LOGFILE (PStr "/dev/null") str_ config;
  config ← required SMTP_HOST str_ config;
  config ← required SMTP_PORT int_ config;
  config ← required SMTP_SENDER str_ config;
  config ← required SMTP_SENDER_PASSWORD str_ config;
  recipients_of MAILINGLIST config.

(** *** The entry point *)

(** [open(path, 'a')]: the empty path names no file. *)
Definition open_a (path : string) : M unit :=
  match path with
  | EmptyString => raise (OSError path)
  | _ => attempt (open_append env path);; do_emit (EvOpen path)
  end.

Definition file_write (path text : string) : M unit :=
  do_emit (EvWrite path text).

(** [Mailer(config[SMTP_HOST], ...)]: the five values are read from
    the dictionary in this order; [get_config_variables] stored them
    with the types the record asks for. *)
Definition as_str (v : PyVal) : M string :=
  match v with PStr s => mret s | _ => raise (TypeError "str expected") end.

Definition as_int (v : PyVal) : M Z :=
  match v with PInt z => mret z | _ => raise (TypeError "int expected") end.

Definition as_list (v : PyVal) : M (list string) :=
  match v with PList l => mret l | _ => raise (TypeError "list expected") end.

Definition new_Mailer (config : gmap string PyVal) : M Mailer :=
  host ← getitem config SMTP_HOST ≫= as_str;
  port ← getitem config SMTP_PORT ≫= as_int;
  from ← getitem config SMTP_SENDER ≫= as_str;
  password ← getitem config SMTP_SENDER_PASSWORD ≫= as_str;
  to ← getitem config MAILINGLIST ≫= as_list;
  mret {| smtp_host := host; smtp_port := port; sender := from;
          sender_password := password; recipients := to |}.

(** The statements under [try:]. *)
Definition main_body (log_file_path : string) : M unit :=
  let stdinlines := stdin_lines env in
  config ← get_config_variables;
  debug ← getitem config DEBUG;
  (if truthy debug then
     t ← time_strftime;
     file_write log_file_path (t +:+ nl);;
     for_each stdinlines (file_write log_file_path)
   else mret tt);;
  mailer ← new_Mailer config;
  post_receive mailer stdinlines config.

(** The statements under [except:]. *)
Definition main_handler (log_file_path : string) (e : PyExc) : M unit :=
  t ← time_strftime;
  file_write log_file_path (t +:+ nl);;
  file_write log_file_path (print_exc env e).

Definition main : M unit :=
  log_file_path ← git_config_get POST_RECEIVE_LOGFILE (PStr EmptyString);
  open_a log_file_path;;
  finally
    (try_except (main_body log_file_path) (main_handler log_file_path))
    (do_emit (EvClose log_file_path)).

End Hook.

(** ** A reference git

    An in-memory repository that answers the six git commands the script
    issues.  It fixes what the script may expect of git in the
    statements below and runs the script on concrete pushes. *)

Module Git.

Record Commit := {
  c_hash : string;
  c_parents : list string;
  c_name : string;
  c_email : string;
  c_date : string;
  c_subject : string;
  c_notes : string
}.

Record Repo := {
  commits : list Commit;
  settings : list (string * string)
}.

Fixpoint assoc {A} (k : string) (l : list (string * A)) : option A :=
  match l with
  | [] => None
  | (k', v) :: r => if String.eqb k k' then Some v else assoc k r
  end.

(** The placeholders of [--pretty=format:] the script relies on. *)
Definition placeholders (c : Commit) : list (string * string) :=
  [("cn", c_name c); ("ce", c_email c); ("cD", c_date c);
   ("H", c_hash c); ("s", c_subject c); ("N", c_notes c)].

Fixpoint find_placeholder (tbl : list (string * string)) (s : string)
  : option (string * string) :=
  match tbl with
  | [] => None
  | (k, v) :: r =>
      if Py.startswith s k then Some (k, v) else find_placeholder r s
  end.

(** Expansion of a pretty format: [%%] is a percent sign, a known
    placeholder is replaced by its value, any other code point is
    copied.  [skip] counts the code points of the placeholder just
    expanded that are still to be passed over. *)
Fixpoint expand (tbl : list (string * string)) (skip : nat) (s : string)
  : string :=
  match s with
  | EmptyString => EmptyString
  | String c r =>
      match skip with
      | S k => expand tbl k r
      | O =>
          if Ascii.eqb c "%" then
            match r with
            | String "%" _ => String "%" (expand tbl 1 r)
            | _ =>
                match find_placeholder tbl r with
                | Some (k, v) => v +:+ expand tbl (String.length k) r
                | None => String c (expand tbl 0 r)
                end
            end
          else String c (expand tbl 0 r)
      end
  end.

Definition find_commit (repo : Repo) (h : string) : option Commit :=
  List.find (fun c => String.eqb (c_hash c) h) (commits repo).

(** [rev] or [rev^{commit}] for a commit id [rev]. *)
Definition resolve (repo : Repo) (rev : string) : option Commit :=
  match find_commit repo rev with
  | Some c => Some c
  | None =>
      match Py.split_on "^" rev with
      | [h; "{commit}"] => find_commit repo h
      | _ => None
      end
  end.

(** The commits reachable from [h], [h] included. *)
Fixpoint reach (repo : Repo) (fuel : nat) (h : string) : list string :=
  match fuel with
  | O => [h]
  | S f =>
      h :: match find_commit repo h with
           | Some c => List.flat_map (reach repo f) (c_parents c)
           | None => []
           end
  end.

Definition mem (h : string) (l : list string) : bool :=
  List.existsb (String.eqb h) l.

Fixpoint dedup (l : list string) : list string :=
  match l with
  | [] => []
  | h :: r => if mem h r then dedup r else h :: dedup r
  end.

Definition ancestors (repo : Repo) (h : string) : list string :=
  dedup (reach repo (List.length (commits repo)) h).

(** The commits of the range [a..b]. *)
Definition range (repo : Repo) (a b : string) : list string :=
  List.filter (fun h => negb (mem h (ancestors repo a))) (ancestors repo b).

Definition exited (code : Z) (out : string) : Completed :=
  {| returncode := code; stdout := out; over_one_second := false |}.

Definition show (c : Commit) : string :=
  "commit " +:+ c_hash c +:+ nl +:+
  "Author: " +:+ c_name c +:+ " <" +:+ c_email c +:+ ">" +:+ nl +:+
  "Date:   " +:+ c_date c +:+ nl +:+ nl +:+
  "    " +:+ c_subject c +:+ nl.

Definition with_range (repo : Repo) (r : string)
    (k : string -> string -> Completed) : Completed :=
  match Py.split_on "." r with
  | [a; EmptyString; b] =>
      match resolve repo a, resolve repo b with
      | Some _, Some _ => k a b
      | _, _ => exited 128 EmptyString
      end
  | _ => exited 128 EmptyString
  end.

Definition git (repo : Repo) (argv : list string) : Completed :=
  match argv with
  | ["git"; "config"; "--get"; name] =>
      match assoc name (settings repo) with
      | Some v => exited 0 (v +:+ nl)
      | None => exited 1 EmptyString
      end
  | ["git"; "show"; rev] =>
      match resolve repo rev with
      | Some c => exited 0 (show c)
      | None => exited 128 EmptyString
      end
  | ["git"; "show"; pretty; "-s"; rev] =>
      if Py.startswith pretty "--pretty=format:" then
        match resolve repo rev with
        | Some c => exited 0 (expand (placeholders c) 0 (Py.drop 16 pretty))
        | None => exited 128 EmptyString
        end
      else exited 128 EmptyString
  | ["git"; "merge-base"; "--is-ancestor"; a; b] =>
      match resolve repo a, resolve repo b with
      | Some ca, Some cb =>
          if mem (c_hash ca) (ancestors repo (c_hash cb))
          then exited 0 EmptyString else exited 1 EmptyString
      | _, _ => exited 128 EmptyString
      end
  | ["git"; "rev-list"; "--count"; r] =>
      with_range repo r (fun a b =>
        exited 0 (Py.str_of_Z (Z.of_nat (List.length (range repo a b)))
                  +:+ nl))
  | ["git"; "rev-list"; "--pretty"; r] =>
      with_range repo r (fun a b =>
        exited 0 (Py.join nl
                    (omap (fun h => show <$> find_commit repo h)
                          (range repo a b))
                  +:+ nl))
  | _ => exited 129 EmptyString
  end.

(** A run of the hook in [repo] with the given standard input: the
    clock shows a fixed time, every file that has a name opens, and
    the SMTP server accepts everything. *)
Definition env (repo : Repo) (input : list string) : Env :=
  {| run := git repo;
     stdin_lines := input;
     strftime := fun _ => "2024-01-01 00:00:00";
     formatdate := fun _ => "Mon, 01 Jan 2024 00:00:00 +0000";
     print_exc := fun _ => "Traceback (most recent call last):";
     open_append := fun _ => None;
     smtp_connect := fun _ _ => None;
     smtp_login := fun _ _ => None;
     smtp_send_message := fun _ => None |}.

End Git.

(** ** A sample repository

    [c1 <- c2 <- c3 <- c4] on one line of history and [d2], a second
    child of [c1]. *)

Module Sample.

Definition zero := "0000000000000000000000000000000000000000".
Definition c1 := "1111111111111111111111111111111111111111".
Definition c2 := "2222222222222222222222222222222222222222".
Definition c3 := "3333333333333333333333333333333333333333".
Definition c4 := "4444444444444444444444444444444444444444".
Definition d2 := "dddddddddddddddddddddddddddddddddddddddd".

Definition commit (h : string) (parents : list string) (subject : string)
  : Git.Commit :=
  {| Git.c_hash := h; Git.c_parents := parents;
     Git.c_name := "Ada"; Git.c_email := "ada@example.org";
     Git.c_date := "Mon, 1 Jan 2024 10:00:00 +0000";
     Git.c_subject := subject; Git.c_notes := EmptyString |}.

Definition history : list Git.Commit :=
  [commit c1 [] "first"; commit c2 [c1] "second"; commit c3 [c2] "third";
   commit c4 [c3] "fourth"; commit d2 [c1] "other"].

Definition smtp : list (string * string) :=
  [("hooks.smtp-host", "mail.example.org"); ("hooks.smtp-port", "465");
   ("hooks.smtp-sender", "git@example.org");
   ("hooks.smtp-sender-password", "secret");
   ("hooks.mailinglist", "dev@example.org, ops@example.org")].

(** No log file and no prefix configured. *)
Definition bare : Git.Repo :=
  {| Git.commits := history; Git.settings := smtp |}.

(** Log file and prefix configured. *)
Definition full : Git.Repo :=
  {| Git.commits := history;
     Git.settings := ("hooks.post-receive-logfile", "/var/log/hook.log")
                     :: ("hooks.emailprefix", "[repo]") :: smtp |}.

Definition mailer : Mailer :=
  {| smtp_host := "mail.example.org"; smtp_port := 465;
     sender := "git@example.org"; sender_password := "secret";
     recipients := ["dev@example.org"; "ops@example.org"] |}.

Definition config : gmap string PyVal :=
  <[EMAILPREFIX := PStr "[repo] "]> ∅.

Definition start : World := {| trace := []; ticks := 0 |}.

(** A run in [repo] on a machine that refuses to open any file. *)
Definition locked (repo : Git.Repo) (input : list string) : Env :=
  {| run := Git.git repo;
     stdin_lines := input;
     strftime := fun _ => "2024-01-01 00:00:00";
     formatdate := fun _ => "Mon, 01 Jan 2024 00:00:00 +0000";
     print_exc := fun _ => "Traceback (most recent call last):";
     open_append := fun path => Some (OSError path);
     smtp_connect := fun _ _ => None;
     smtp_login := fun _ _ => None;
     smtp_send_message := fun _ => None |}.

(** The same mailer with an empty mailing list. *)
Definition nobody : Mailer :=
  {| smtp_host := "mail.example.org"; smtp_port := 465;
     sender := "git@example.org"; sender_password := "secret";
     recipients := [] |}.

(** One line of standard input. *)
Definition line (old_rev new_rev ref_name : string) : string :=
  old_rev +:+ " " +:+ new_rev +:+ " " +:+ ref_name +:+ nl.

End Sample.

(** ** Vocabulary of the statements *)

(** A computation is silent when it adds no event to the trace: it
    opens and writes no file and makes no network call. *)
Definition silent {A} (m : M A) : Prop :=
  forall w, trace (snd (m w)) = trace w.

(** [sub] occurs in [s]. *)
Definition contains (s sub : string) : Prop :=
  exists a b, s = a +:+ sub +:+ b.

(** The body that reports on commit [c] for the branch [name]:
    [branch_label] introduces the name and [commit_label] the full id.
    The name stands in it as it is. *)
Definition commit_report (c : Git.Commit) (branch_label name commit_label
                          : string) : string :=
  "Commiter: " +:+ Git.c_name c +:+ " <" +:+ Git.c_email c +:+ ">" +:+ nl +:+
  "Date: " +:+ Git.c_date c +:+ nl +:+
  branch_label +:+ ": " +:+ name +:+ nl +:+
  commit_label +:+ ": " +:+ Git.c_hash c +:+ nl +:+
  "Subject: " +:+ Git.c_subject c +:+ nl +:+
  "Notes:" +:+ nl +:+ Git.c_notes c.

(** What [git config --get] prints for a key: its value and a newline,
    or nothing when the key is not set. *)
Definition printed (value : option string) : string :=
  match value with
  | Some v => v +:+ nl
  | None => EmptyString
  end.

(** The first statements of [get_config_variables], up to the
    normalisation of the prefix. *)
Definition prefix_stored (env : Env) : M (gmap string PyVal) :=
  optional env EMAILPREFIX (PStr EmptyString) str_ ∅ ≫= normalize_prefix.

(** The subjects of the emails a run of [post_receive] on the sample
    repository sends for [lines]. *)
Definition subjects_sent (lines : list string) : list string :=
  List.map Subject
    (sent (snd (post_receive (Git.env Sample.full []) Sample.mailer lines
                  Sample.config Sample.start))).

(** What [git_config_get] reads for [key]: the output of
    [git config --get key] without its last code point. *)
Definition configured (env : Env) (key : string) : string :=
  Py.drop_last (stdout (run env ["git"; "config"; "--get"; key])).

(** No code point of [s] satisfies [p]. *)
Fixpoint free_of (p : ascii -> bool) (s : string) : bool :=
  match s with
  | EmptyString => true
  | String c r => negb (p c) && free_of p r
  end.

(** A token of an input line: not empty and free of whitespace. *)
Definition token (s : string) : bool :=
  Py.nonempty s && free_of Py.is_space s.

(** The code points the pattern of the mailing list matches. *)
Definition is_delimiter (c : ascii) : bool :=
  Ascii.eqb c " " || Ascii.eqb c ",".

(** A recipient as the mailing list holds it: not empty and free of
    spaces and commas. *)
Definition address (s : string) : bool :=
  Py.nonempty s && free_of is_delimiter s.

(** The emails among a list of events. *)
Definition mails (evs : list Event) : list EmailMessage :=
  omap (fun ev => match ev with EvSendMessage m => Some m | _ => None end) evs.

(** An event of an SMTP session. *)
Definition is_smtp (ev : Event) : Prop :=
  match ev with
  | EvConnect _ _ | EvLogin _ _ | EvSendMessage _ | EvQuit => True
  | _ => False
  end.

(** The email [Mailer.send] builds. *)
Definition email_of (self : Mailer) (subject reply_to message : string)
  : EmailMessage :=
  {| content := message; From := sender self; Reply_To := reply_to;
     To := Py.join ", " (recipients self); Subject := subject |}.

(** An email that carries the sender and the recipients of [self]. *)
Definition from_mailer (self : Mailer) (m : EmailMessage) : Prop :=
  From m = sender self /\ To m = Py.join ", " (recipients self).

(** The events of at most one SMTP session of [self]: no file event,
    and at most one email, which is from [self]. *)
Definition one_session (self : Mailer) (evs : list Event) : Prop :=
  Forall is_smtp evs /\
  (List.length (mails evs) <= 1)%nat /\
  Forall (from_mailer self) (mails evs).

(** An event that leaves every file but the log at [path] alone, and
    neither opens nor closes a file. *)
Definition logs_to (path : string) (ev : Event) : Prop :=
  match ev with
  | EvOpen _ | EvClose _ => False
  | EvWrite p _ => p = path
  | _ => True
  end.

(** A computation only appends to the trace, and what it appends
    satisfies [Q]. *)
Definition yields {A} (Q : list Event -> Prop) (m : M A) : Prop :=
  forall w, exists evs : list Event,
    trace (snd (m w)) = (trace w ++ evs)%list /\ Q evs.

(** The number a row of decimal digits denotes after [acc]. *)
Fixpoint digits_value (acc : N) (d : Decimal.uint) : N :=
  match d with
  | Decimal.Nil => acc
  | Decimal.D0 l => digits_value (10 * acc) l
  | Decimal.D1 l => digits_value (10 * acc + 1) l
  | Decimal.D2 l => digits_value (10 * acc + 2) l
  | Decimal.D3 l => digits_value (10 * acc + 3) l
  | Decimal.D4 l => digits_value (10 * acc + 4) l
  | Decimal.D5 l => digits_value (10 * acc + 5) l
  | Decimal.D6 l => digits_value (10 * acc + 6) l
  | Decimal.D7 l => digits_value (10 * acc + 7) l
  | Decimal.D8 l => digits_value (10 * acc + 8) l
  | Decimal.D9 l => digits_value (10 * acc + 9) l
  end%N.

(** * Properties *)

(** ** The script at work *)

Example split_line :
  parse_post_receive_line
    (Sample.line Sample.zero Sample.c1 "refs/heads/main")
  = [Sample.zero; Sample.c1; "refs/heads/main"].
Proof. reflexivity. Qed.

Example branch_ref : ref_type_name "refs/heads/topic/fix" = ("branch", "fix").
Proof. reflexivity. Qed.

Example tag_ref : ref_type_name "refs/tags/v1" = ("tag", "v1").
Proof. reflexivity. Qed.

Example other_ref : ref_type_name "refs/notes/commits" = ("unknown", "commits").
Proof. reflexivity. Qed.

Example recipients_split :
  List.filter Py.nonempty (Py.re_split_recipients "a@x , b@x  c@x,,d@x ")
  = ["a@x"; "b@x"; "c@x"; "d@x"].
Proof. reflexivity. Qed.

Example count_parsed : Py.int ("3" +:+ nl) = Some 3.
Proof. reflexivity. Qed.

Example one_mail_per_update :
  subjects_sent
    [Sample.line Sample.zero Sample.c1 "refs/heads/main";
     Sample.line Sample.c1 Sample.c2 "refs/heads/main";
     Sample.line Sample.c2 Sample.c4 "refs/heads/main";
     Sample.line Sample.c4 Sample.c2 "refs/heads/main";
     Sample.line Sample.c2 Sample.d2 "refs/heads/main";
     Sample.line Sample.d2 Sample.zero "refs/heads/main";
     Sample.line Sample.zero Sample.c3 "refs/tags/v1";
     Sample.line Sample.c3 Sample.zero "refs/tags/v1";
     Sample.line Sample.c1 Sample.c2 "refs/notes/commits"]
  = ["[repo] new branch: (main) at commit 1111111: first";
     "[repo] (main) new commit 2222222: second";
     "[repo] (main) 2 new commits 4444444: fourth";
     "[repo] (main) forced reset to commit 2222222: second";
     "[repo] (main) forced rewrite to commit ddddddd: other";
     "[repo] delete branch: (main)";
     "[repo] new tag: (v1) at commit 3333333: third";
     "[repo] delete tag: (v1)"].
Proof. reflexivity. Qed.

(** ** Running the monad *)

Lemma bind_run {A B} (m : M A) (f : A -> M B) (w : World) :
  (m ≫= f) w =
  match m w with
  | (Ok a, w') => f a w'
  | (Raise e, w') => (Raise e, w')
  end.
Proof. reflexivity. Qed.

Lemma bind_ok {A B} (m : M A) (f : A -> M B) (w w' : World) (a : A) :
  m w = (Ok a, w') -> (m ≫= f) w = f a w'.
Proof. intros H. rewrite bind_run, H. reflexivity. Qed.

Lemma bind_raise {A B} (m : M A) (f : A -> M B) (w w' : World) (e : PyExc) :
  m w = (Raise e, w') -> (m ≫= f) w = (Raise e, w').
Proof. intros H. rewrite bind_run, H. reflexivity. Qed.

Lemma for_each_app {A} (l1 l2 : list A) (body : A -> M unit) (w : World) :
  for_each (l1 ++ l2) body w =
  match for_each l1 body w with
  | (Ok _, w') => for_each l2 body w'
  | r => r
  end.
Proof.
  revert w. induction l1 as [|x l1 IH]; intros w; simpl.
  - reflexivity.
  - rewrite !bind_run. destruct (body x w) as [[[]|e] w1].
    + apply IH.
    + reflexivity.
Qed.

(** ** Computations that leave the trace alone

    Queries to git, dictionary lookups, formatting and clock readings
    add no event to the trace. *)

Lemma silent_ret {A} (a : A) : silent (mret a).
Proof. intros w. reflexivity. Qed.

Lemma silent_raise {A} (e : PyExc) : silent (@raise A e).
Proof. intros w. reflexivity. Qed.

Lemma silent_bind {A B} (m : M A) (f : A -> M B) :
  silent m -> (forall a, silent (f a)) -> silent (m ≫= f).
Proof.
  intros Hm Hf w. rewrite bind_run.
  specialize (Hm w). destruct (m w) as [[a|e] w1]; simpl in *.
  - rewrite Hf. exact Hm.
  - exact Hm.
Qed.

Lemma silent_lift_option {A} (o : option A) (e : PyExc) :
  silent (lift_option o e).
Proof. destruct o; [apply silent_ret | apply silent_raise]. Qed.

Lemma silent_for_each {A} (l : list A) (body : A -> M unit) :
  (forall x, silent (body x)) -> silent (for_each l body).
Proof.
  intros Hb. induction l as [|x l IH]; simpl.
  - apply silent_ret.
  - apply silent_bind; [apply Hb | intros _; exact IH].
Qed.

Create HintDb silent.
#[export] Hint Resolve silent_ret silent_raise silent_lift_option : silent.

Ltac silent_steps :=
  repeat first
    [ apply silent_bind; [| intros ?]
    | solve [eauto with silent] ].

Section Silent.

Variable env : Env.

Lemma silent_format tmpl args : silent (format tmpl args).
Proof. apply silent_lift_option. Qed.

Lemma silent_getitem config key : silent (getitem config key).
Proof. apply silent_lift_option. Qed.

Lemma silent_check_output argv : silent (check_output env argv).
Proof.
  unfold check_output. destruct (_ =? _); auto with silent.
Qed.

Hint Resolve silent_format silent_getitem silent_check_output : silent.

Lemma silent_git_show_format_str rev fmt :
  silent (git_show_format_str env rev fmt).
Proof. unfold git_show_format_str. silent_steps. Qed.

Lemma silent_git_show rev : silent (git_show env rev).
Proof. unfold git_show. silent_steps. Qed.

Lemma silent_git_rev_list_range_pretty a b :
  silent (git_rev_list_range_pretty env a b).
Proof. unfold git_rev_list_range_pretty. silent_steps. Qed.

Lemma silent_num_commits_in_range a b :
  silent (num_commits_in_range env a b).
Proof. unfold num_commits_in_range. silent_steps. Qed.

Lemma silent_is_descendant_commit a b :
  silent (is_descendant_commit env a b).
Proof.
  unfold is_descendant_commit.
  repeat match goal with |- context [if ?c then _ else _] => destruct c end;
    auto with silent.
Qed.

Lemma silent_email_formatdate : silent (email_formatdate env).
Proof. intros w. reflexivity. Qed.

End Silent.

#[export] Hint Resolve silent_format silent_getitem silent_check_output
  silent_git_show_format_str silent_git_show silent_git_rev_list_range_pretty
  silent_num_commits_in_range silent_is_descendant_commit
  silent_email_formatdate : silent.

(** ** Sending without recipients *)

Section NoRecipients.

Variable env : Env.
Variable self : Mailer.
Hypothesis nobody : recipients self = [].

Lemma send_returns_at_once subject reply_to message w :
  Mailer_send env self subject reply_to message w = (Ok tt, w).
Proof. unfold Mailer_send. rewrite nobody. reflexivity. Qed.

Lemma silent_send subject reply_to message :
  silent (Mailer_send env self subject reply_to message).
Proof. intros w. rewrite send_returns_at_once. reflexivity. Qed.

Hint Resolve silent_send : silent.

Lemma silent_commit_range old_rev new_rev name config :
  silent (process_commit_range env old_rev new_rev name self config).
Proof.
  unfold process_commit_range, process_new_commits, process_forced_reset,
    process_forced_unknown, commit_subject, commiter_email.
  apply silent_bind; [auto with silent|]. intros [].
  - apply silent_bind; [auto with silent|]. intros n.
    apply silent_bind.
    + destruct (n =? 1); [silent_steps|].
      destruct (0 <? n); silent_steps.
    + intros ?. silent_steps.
  - apply silent_bind; [auto with silent|]. intros []; silent_steps.
Qed.

Lemma silent_post_receive_line config line :
  silent (post_receive_line env self config line).
Proof.
  unfold post_receive_line.
  destruct (parse_post_receive_line line) as [|a [|b [|c [|d l]]]];
    auto with silent.
  destruct (ref_type_name c) as [ref_type name].
  repeat match goal with |- context [if ?c then _ else _] => destruct c end;
    try apply silent_commit_range; auto with silent;
    unfold process_new_branch, process_delete_branch, process_new_tag,
      process_delete_tag, process_unknown, commit_subject, commiter_email;
    silent_steps.
Qed.

Lemma silent_post_receive lines config :
  silent (post_receive env self lines config).
Proof. apply silent_for_each, silent_post_receive_line. Qed.

End NoRecipients.

(** C9: [Mailer.send] on a mailer whose recipient list is empty returns
    at once for every subject, reply-to and body, leaving the world as
    it was: no connection is opened and nothing is sent.  Hence a whole
    run of [post_receive] with such a mailer, whatever the update cases
    of its lines, adds no event to the trace. *)
Theorem send_without_recipients_is_noop (env : Env) (self : Mailer) :
  recipients self = [] ->
  (forall subject reply_to message w,
      Mailer_send env self subject reply_to message w = (Ok tt, w)) /\
  (forall lines config w,
      trace (snd (post_receive env self lines config w)) = trace w).
Proof.
  intros nobody. split.
  - intros. apply send_returns_at_once, nobody.
  - intros lines config. apply silent_post_receive, nobody.
Qed.

Lemma send_without_recipients_is_noop_witness :
  Mailer_send (Git.env Sample.full []) Sample.nobody
    "subject" "ada@example.org" "body" Sample.start = (Ok tt, Sample.start)
  /\ trace (snd (post_receive (Git.env Sample.full []) Sample.nobody
                   [Sample.line Sample.c1 Sample.c4 "refs/heads/main";
                    Sample.line Sample.zero Sample.c3 "refs/tags/v1"]
                   Sample.config Sample.start)) = [].
Proof.
  destruct (send_without_recipients_is_noop
              (Git.env Sample.full []) Sample.nobody eq_refl) as [Hs Hp].
  split; [apply Hs | apply Hp].
Defined.

(** ** Malformed lines *)

Lemma post_receive_line_malformed env mailer config line w :
  List.length (parse_post_receive_line line) <> 3%nat ->
  post_receive_line env mailer config line w = (Raise (ValueError "unpack"), w).
Proof.
  unfold post_receive_line. intros H.
  destruct (parse_post_receive_line line) as [|a [|b [|c [|d l]]]];
    try reflexivity.
  simpl in H. congruence.
Qed.

(** C10: when the whitespace split of a line does not give exactly
    three tokens, the unpacking raises [ValueError].  The lines before
    it are processed as usual; at the malformed line the run stops with
    the exception and the world as those lines left it, so no email is
    sent for it, and the lines after it play no part in the result. *)
Theorem malformed_line_raises (env : Env) (mailer : Mailer)
    (config : gmap string PyVal) (before after : list string)
    (line : string) (w : World) :
  List.length (parse_post_receive_line line) <> 3%nat ->
  post_receive env mailer (before ++ line :: after) config w =
  match post_receive env mailer before config w with
  | (Ok _, w') => (Raise (ValueError "unpack"), w')
  | r => r
  end.
Proof.
  intros H. unfold post_receive. rewrite for_each_app.
  destruct (for_each before _ w) as [[[]|e] w']; [|reflexivity].
  simpl. rewrite bind_run, post_receive_line_malformed by exact H.
  reflexivity.
Qed.

Lemma malformed_line_raises_witness :
  post_receive (Git.env Sample.full []) Sample.mailer
    ([] ++ ("only two" +:+ nl)
        :: [Sample.line Sample.c1 Sample.c4 "refs/heads/main"])
    Sample.config Sample.start
  = (Raise (ValueError "unpack"), Sample.start).
Proof.
  apply (malformed_line_raises (Git.env Sample.full []) Sample.mailer
           Sample.config [] _ ("only two" +:+ nl) Sample.start).
  vm_compute. discriminate.
Defined.

(** ** Tag updates *)

Lemma tag_update_takes_no_action env mailer config line old_rev new_rev
    ref_name w :
  parse_post_receive_line line = [old_rev; new_rev; ref_name] ->
  fst (ref_type_name ref_name) = "tag" ->
  is_dummy_rev old_rev = false ->
  is_dummy_rev new_rev = false ->
  post_receive_line env mailer config line w = (Ok tt, w).
Proof.
  intros Hp Ht Ho Hn. unfold post_receive_line. rewrite Hp.
  destruct (ref_type_name ref_name) as [ref_type name]. simpl in Ht.
  subst ref_type. simpl. rewrite Ho, Hn. reflexivity.
Qed.

(** C1: a tag moved from commit [c2] to commit [c3], both of them real
    commits.  The run ends normally and the world is untouched: no
    exception is raised and no email is sent, the update is passed over
    in silence. *)
Theorem tag_update_in_place_is_ignored :
  post_receive (Git.env Sample.full []) Sample.mailer
    [Sample.line Sample.c2 Sample.c3 "refs/tags/v1"]
    Sample.config Sample.start
  = (Ok tt, Sample.start).
Proof.
  unfold post_receive. simpl for_each. rewrite bind_run.
  rewrite (tag_update_takes_no_action _ _ _ _ Sample.c2 Sample.c3
             "refs/tags/v1"); reflexivity.
Qed.

(** ** Formatting *)

Lemma append_cons (c : ascii) (a b : string) :
  String c a +:+ b = String c (a +:+ b).
Proof. reflexivity. Qed.

Lemma append_empty (s : string) : s +:+ EmptyString = s.
Proof.
  induction s as [|c s IH]; [reflexivity|].
  rewrite append_cons, IH. reflexivity.
Qed.

Lemma append_assoc (a b c : string) : (a +:+ b) +:+ c = a +:+ b +:+ c.
Proof.
  induction a as [|x a IH]; [reflexivity|].
  rewrite !append_cons, IH. reflexivity.
Qed.

Ltac by_format :=
  unfold format, Py.format; cbn; rewrite ?append_empty; reflexivity.

Lemma format_range (a b : string) :
  format "{}..{}" [a; b] = mret (a +:+ ".." +:+ b).
Proof. by_format. Qed.

Lemma format_pretty (fmt : string) :
  format "--pretty=format:{}" [fmt] = mret ("--pretty=format:" +:+ fmt).
Proof. by_format. Qed.

Lemma format_new_commit (p b h s : string) :
  format "{}({}) new commit {}: {}" [p; b; h; s] =
  mret (p +:+ "(" +:+ b +:+ ") new commit " +:+ h +:+ ": " +:+ s).
Proof. by_format. Qed.

Lemma format_new_commits (p b n h s : string) :
  format "{}({}) {} new commits {}: {}" [p; b; n; h; s] =
  mret (p +:+ "(" +:+ b +:+ ") " +:+ n +:+ " new commits " +:+ h +:+ ": "
        +:+ s).
Proof. by_format. Qed.

(** ** Ancestry dispatch *)

(** C4: for a branch update between two real commits, the ancestry
    check of the old id against the new one comes first.  When it
    answers yes, the fast-forward handler runs, whatever the reverse
    check would say.  When it answers no and the reverse check answers
    yes, the reset handler runs.  When both answer no, the handler for
    an unrelated rewrite runs.  The three conditions exclude one
    another, so one handler is dispatched per record. *)
Theorem commit_range_dispatch (env : Env) (old_rev new_rev name : string)
    (mailer : Mailer) (config : gmap string PyVal) (w : World) :
  (is_descendant_commit env old_rev new_rev w = (Ok true, w) ->
   process_commit_range env old_rev new_rev name mailer config w =
   process_new_commits env old_rev new_rev name mailer config w) /\
  (is_descendant_commit env old_rev new_rev w = (Ok false, w) ->
   is_descendant_commit env new_rev old_rev w = (Ok true, w) ->
   process_commit_range env old_rev new_rev name mailer config w =
   process_forced_reset env old_rev new_rev name mailer config w) /\
  (is_descendant_commit env old_rev new_rev w = (Ok false, w) ->
   is_descendant_commit env new_rev old_rev w = (Ok false, w) ->
   process_commit_range env old_rev new_rev name mailer config w =
   process_forced_unknown env old_rev new_rev name mailer config w).
Proof.
  unfold process_commit_range. split; [|split].
  - intros H. rewrite (bind_ok _ _ _ _ _ H). reflexivity.
  - intros H1 H2. rewrite (bind_ok _ _ _ _ _ H1), (bind_ok _ _ _ _ _ H2).
    reflexivity.
  - intros H1 H2. rewrite (bind_ok _ _ _ _ _ H1), (bind_ok _ _ _ _ _ H2).
    reflexivity.
Qed.

Lemma commit_range_dispatch_witness :
  let env := Git.env Sample.full [] in
  let m := Sample.mailer in
  let cfg := Sample.config in
  let w := Sample.start in
  process_commit_range env Sample.c1 Sample.c4 "main" m cfg w =
  process_new_commits env Sample.c1 Sample.c4 "main" m cfg w
  /\ process_commit_range env Sample.c4 Sample.c2 "main" m cfg w =
     process_forced_reset env Sample.c4 Sample.c2 "main" m cfg w
  /\ process_commit_range env Sample.c4 Sample.d2 "main" m cfg w =
     process_forced_unknown env Sample.c4 Sample.d2 "main" m cfg w.
Proof.
  intros env m cfg w. split; [|split].
  - apply (proj1 (commit_range_dispatch env Sample.c1 Sample.c4 "main" m cfg w)).
    reflexivity.
  - apply (proj1 (proj2 (commit_range_dispatch env Sample.c4 Sample.c2 "main"
                           m cfg w))); reflexivity.
  - apply (proj2 (proj2 (commit_range_dispatch env Sample.c4 Sample.d2 "main"
                           m cfg w))); reflexivity.
Defined.

(** ** Branch updates that change nothing *)

Lemma num_commits_in_range_run env old_rev new_rev w :
  num_commits_in_range env old_rev new_rev w =
  let q := run env ["git"; "rev-list"; "--count"; old_rev +:+ ".." +:+ new_rev] in
  if returncode q =? 0
  then (lift_option (Py.int (stdout q))
          (ValueError "invalid literal for int()") w)
  else (Raise (CalledProcessError
                 ["git"; "rev-list"; "--count"; old_rev +:+ ".." +:+ new_rev]
                 (returncode q)), w).
Proof.
  unfold num_commits_in_range. rewrite format_range.
  rewrite bind_run. unfold mret at 1, M_ret at 1.
  rewrite bind_run. unfold check_output. cbv zeta.
  destruct (returncode _ =? 0); reflexivity.
Qed.

Lemma new_commits_zero env old_rev new_rev name mailer config w :
  num_commits_in_range env old_rev new_rev w = (Ok 0, w) ->
  process_new_commits env old_rev new_rev name mailer config w =
  (Raise (Exception_ "process 0 new commits"), w).
Proof.
  intros H. unfold process_new_commits.
  rewrite (bind_ok _ _ _ _ _ H). reflexivity.
Qed.

Lemma new_commits_count_raises env old_rev new_rev name mailer config w e :
  num_commits_in_range env old_rev new_rev w = (Raise e, w) ->
  process_new_commits env old_rev new_rev name mailer config w = (Raise e, w).
Proof. intros H. unfold process_new_commits. apply bind_raise, H. Qed.

Section ZeroChange.

Variable env : Env.
Variables (mailer : Mailer) (config : gmap string PyVal).
Variable x : string.

Let ancestry := run env ["git"; "merge-base"; "--is-ancestor"; x; x].
Let count := run env ["git"; "rev-list"; "--count"; x +:+ ".." +:+ x].

(** git never denies that a commit is its own ancestor. *)
Hypothesis own_ancestor : returncode ancestry <> 1.

(** When git counts the commits of [x..x], it prints zero. *)
Hypothesis empty_range :
  returncode count = 0 -> Py.int (stdout count) = Some 0.

Lemma zero_commits_counted w :
  num_commits_in_range env x x w = (Ok 0, w) \/
  exists e, num_commits_in_range env x x w = (Raise e, w).
Proof.
  rewrite num_commits_in_range_run. cbv zeta. fold count.
  destruct (returncode count =? 0) eqn:Ec.
  - apply Z.eqb_eq in Ec. rewrite (empty_range Ec). left. reflexivity.
  - right. eexists. reflexivity.
Qed.

Lemma zero_commits_raise name w :
  exists e,
    process_commit_range env x x name mailer config w = (Raise e, w).
Proof.
  unfold process_commit_range, is_descendant_commit. fold ancestry.
  rewrite bind_run.
  destruct (over_one_second ancestry); [eexists; reflexivity|].
  destruct (returncode ancestry =? 0) eqn:E0.
  - unfold mret at 1, M_ret at 1.
    destruct (zero_commits_counted w) as [H|[e H]].
    + rewrite (new_commits_zero _ _ _ _ _ _ _ H). eexists. reflexivity.
    + rewrite (new_commits_count_raises _ _ _ _ _ _ _ _ H).
      eexists. reflexivity.
  - destruct (returncode ancestry =? 1) eqn:E1.
    + apply Z.eqb_eq in E1. contradiction.
    + eexists. reflexivity.
Qed.

Lemma zero_commits_exception name w :
  over_one_second ancestry = false ->
  returncode ancestry = 0 ->
  returncode count = 0 ->
  process_commit_range env x x name mailer config w =
  (Raise (Exception_ "process 0 new commits"), w).
Proof.
  intros Ht Ha Hc.
  unfold process_commit_range, is_descendant_commit. fold ancestry.
  rewrite bind_run, Ht, Ha. simpl.
  apply new_commits_zero.
  rewrite num_commits_in_range_run. cbv zeta. fold count.
  rewrite Hc, (empty_range Hc). reflexivity.
Qed.

End ZeroChange.

(** C2: a branch update whose old and new ids are the same real commit.
    git does not deny that the commit is its own ancestor, and counts
    no commit in the empty range.  Processing the line then raises, and
    the world is as it was before the line: no email is sent for it.
    When git answers both queries, the exception raised is the one of
    [process_new_commits] for a count of zero. *)
Theorem zero_change_update_raises (env : Env) (mailer : Mailer)
    (config : gmap string PyVal) (line : string) (rest : list string)
    (x ref_name name : string) (w : World) :
  let ancestry := run env ["git"; "merge-base"; "--is-ancestor"; x; x] in
  let count := run env ["git"; "rev-list"; "--count"; x +:+ ".." +:+ x] in
  parse_post_receive_line line = [x; x; ref_name] ->
  ref_type_name ref_name = ("branch", name) ->
  is_dummy_rev x = false ->
  returncode ancestry <> 1 ->
  (returncode count = 0 -> Py.int (stdout count) = Some 0) ->
  (exists e, post_receive env mailer (line :: rest) config w = (Raise e, w)) /\
  (over_one_second ancestry = false ->
   returncode ancestry = 0 ->
   returncode count = 0 ->
   post_receive env mailer (line :: rest) config w =
   (Raise (Exception_ "process 0 new commits"), w)).
Proof.
  intros ancestry count Hp Hr Hd Ha Hc.
  assert (Hline : post_receive_line env mailer config line =
                  process_commit_range env x x name mailer config).
  { unfold post_receive_line. rewrite Hp, Hr. simpl. rewrite Hd. reflexivity. }
  unfold post_receive. simpl for_each. rewrite bind_run, Hline. split.
  - destruct (zero_commits_raise env mailer config x Ha Hc name w) as [e He].
    rewrite He. exists e. reflexivity.
  - intros Ht H0 Hz.
    rewrite (zero_commits_exception env mailer config x Hc name w Ht H0 Hz).
    reflexivity.
Qed.

Lemma zero_change_update_raises_witness :
  post_receive (Git.env Sample.full []) Sample.mailer
    [Sample.line Sample.c2 Sample.c2 "refs/heads/main";
     Sample.line Sample.c1 Sample.c4 "refs/heads/main"]
    Sample.config Sample.start
  = (Raise (Exception_ "process 0 new commits"), Sample.start).
Proof.
  refine (proj2 (zero_change_update_raises (Git.env Sample.full [])
                   Sample.mailer Sample.config _ _ Sample.c2
                   "refs/heads/main" "main" Sample.start _ _ _ _ _) _ _ _).
  - reflexivity.
  - reflexivity.
  - reflexivity.
  - vm_compute. discriminate.
  - intros _. reflexivity.
  - reflexivity.
  - reflexivity.
  - reflexivity.
Defined.

(** ** The subject of a fast-forward *)

Lemma getitem_ok (config : gmap string PyVal) key v w :
  config !! key = Some v -> getitem config key w = (Ok v, w).
Proof. intros H. unfold getitem. rewrite H. reflexivity. Qed.

Ltac run_with H := repeat rewrite bind_run; rewrite H; cbv beta iota.

(** C7: the fast-forward handler, when git reports [n] commits in the
    range, the subject [subj] and committer [reply] of the new commit
    and the log [msg] of the range, ends in one call of [Mailer.send]
    whose subject is the prefix followed by
    [(name) new commit short: subj] when [n] is one and by
    [(name) n new commits short: subj] when [n] is larger; for three
    commits the subject contains [3 new commits]. *)
Theorem new_commits_subject (env : Env) (old_rev new_rev name : string)
    (mailer : Mailer) (config : gmap string PyVal) (w : World)
    (prefix : PyVal) (n : Z) (subj msg reply : string) :
  config !! EMAILPREFIX = Some prefix ->
  num_commits_in_range env old_rev new_rev w = (Ok n, w) ->
  commit_subject env new_rev w = (Ok subj, w) ->
  git_rev_list_range_pretty env old_rev new_rev w = (Ok msg, w) ->
  commiter_email env new_rev w = (Ok reply, w) ->
  (n = 1 ->
   process_new_commits env old_rev new_rev name mailer config w =
   Mailer_send env mailer
     (py_str prefix +:+ "(" +:+ name +:+ ") new commit "
      +:+ short_hash new_rev +:+ ": " +:+ subj) reply msg w) /\
  (1 < n ->
   process_new_commits env old_rev new_rev name mailer config w =
   Mailer_send env mailer
     (py_str prefix +:+ "(" +:+ name +:+ ") " +:+ Py.str_of_Z n
      +:+ " new commits " +:+ short_hash new_rev +:+ ": " +:+ subj)
     reply msg w) /\
  (n = 3 ->
   exists subject,
     process_new_commits env old_rev new_rev name mailer config w =
     Mailer_send env mailer subject reply msg w /\
     contains subject "3 new commits").
Proof.
  intros Hk Hn Hs Hm Hr.
  pose proof (getitem_ok config EMAILPREFIX prefix w Hk) as Hg.
  assert (Hmany : 1 < n ->
    process_new_commits env old_rev new_rev name mailer config w =
    Mailer_send env mailer
      (py_str prefix +:+ "(" +:+ name +:+ ") " +:+ Py.str_of_Z n
       +:+ " new commits " +:+ short_hash new_rev +:+ ": " +:+ subj)
      reply msg w).
  { intros Hgt. unfold process_new_commits. run_with Hn.
    replace (n =? 1) with false by (symmetry; apply Z.eqb_neq; lia).
    replace (0 <? n) with true by (symmetry; apply Z.ltb_lt; lia).
    run_with Hg. run_with Hs. rewrite format_new_commits.
    unfold mret at 1, M_ret at 1. cbv beta iota.
    run_with Hm. run_with Hr. reflexivity. }
  split; [|split].
  - intros ->. unfold process_new_commits. run_with Hn.
    change (1 =? 1) with true. cbv iota.
    run_with Hg. run_with Hs. rewrite format_new_commit.
    unfold mret at 1, M_ret at 1. cbv beta iota.
    run_with Hm. run_with Hr. reflexivity.
  - exact Hmany.
  - intros ->. eexists. split; [apply Hmany; lia|].
    exists (py_str prefix +:+ "(" +:+ name +:+ ") "),
           (" " +:+ short_hash new_rev +:+ ": " +:+ subj).
    rewrite !append_assoc. reflexivity.
Qed.

Lemma new_commits_subject_witness :
  let env := Git.env Sample.full [] in
  (exists msg,
     process_new_commits env Sample.c1 Sample.c2 "main" Sample.mailer
       Sample.config Sample.start =
     Mailer_send env Sample.mailer
       "[repo] (main) new commit 2222222: second" "ada@example.org" msg
       Sample.start) /\
  (exists msg,
     process_new_commits env Sample.c1 Sample.c4 "main" Sample.mailer
       Sample.config Sample.start =
     Mailer_send env Sample.mailer
       "[repo] (main) 3 new commits 4444444: fourth" "ada@example.org" msg
       Sample.start).
Proof.
  intros env. split; eexists.
  - refine (proj1 (new_commits_subject env Sample.c1 Sample.c2 "main"
                     Sample.mailer Sample.config Sample.start
                     (PStr "[repo] ") 1 "second" _ "ada@example.org"
                     _ _ _ _ _) _); reflexivity.
  - refine (proj1 (proj2 (new_commits_subject env Sample.c1 Sample.c4 "main"
                     Sample.mailer Sample.config Sample.start
                     (PStr "[repo] ") 3 "fourth" _ "ada@example.org"
                     _ _ _ _ _)) _); reflexivity.
Defined.

(** ** Percent signs in names *)

Lemma format_new_branch (p b h s : string) :
  format "{}new branch: ({}) at commit {}: {}" [p; b; h; s] =
  mret (p +:+ "new branch: (" +:+ b +:+ ") at commit " +:+ h +:+ ": " +:+ s).
Proof. by_format. Qed.

Lemma format_forced_reset (p b h s : string) :
  format "{}({}) forced reset to commit {}: {}" [p; b; h; s] =
  mret (p +:+ "(" +:+ b +:+ ") forced reset to commit " +:+ h +:+ ": "
        +:+ s).
Proof. by_format. Qed.

Lemma format_forced_unknown (p b h s : string) :
  format "{}({}) forced rewrite to commit {}: {}" [p; b; h; s] =
  mret (p +:+ "(" +:+ b +:+ ") forced rewrite to commit " +:+ h +:+ ": "
        +:+ s).
Proof. by_format. Qed.

Ltac by_body_format := unfold format, Py.format; simpl; reflexivity.

Lemma format_new_branch_body (n : string) :
  format "Commiter: %cn <%ce>
Date: %cD
New branch: {}
Commit: %H
Subject: %s
Notes:
%N" [n] = mret ("Commiter: %cn <%ce>
Date: %cD
New branch: " +:+ n +:+ "
Commit: %H
Subject: %s
Notes:
%N").
Proof. by_body_format. Qed.

Lemma format_forced_reset_body (n : string) :
  format "Commiter: %cn <%ce>
Date: %cD
Branch: {}
Reset to commit: %H
Subject: %s
Notes:
%N" [n] = mret ("Commiter: %cn <%ce>
Date: %cD
Branch: " +:+ n +:+ "
Reset to commit: %H
Subject: %s
Notes:
%N").
Proof. by_body_format. Qed.

Lemma format_forced_unknown_body (n : string) :
  format "Commiter: %cn <%ce>
Date: %cD
Branch: {}
Most recent commit: %H
Subject: %s
Notes:
%N" [n] = mret ("Commiter: %cn <%ce>
Date: %cD
Branch: " +:+ n +:+ "
Most recent commit: %H
Subject: %s
Notes:
%N").
Proof. by_body_format. Qed.


Lemma expand_escape tbl (name rest : string) :
  Git.expand tbl 0 (escape_git_fmt_str name +:+ rest) =
  name +:+ Git.expand tbl 0 rest.
Proof.
  unfold escape_git_fmt_str.
  induction name as [|a name IH]; [reflexivity|].
  cbn [Py.replace_char]. destruct (Ascii.eqb a "%") eqn:E.
  - apply Ascii.eqb_eq in E. subst a.
    change (Git.expand tbl 0
              (String "%" (String "%"
                 (Py.replace_char "%" "%%" name +:+ rest))) =
            String "%" (name +:+ Git.expand tbl 0 rest)).
    cbn [Git.expand]. change (Ascii.eqb "%" "%") with true. cbv iota.
    rewrite IH. reflexivity.
  - rewrite !append_cons. cbn [Git.expand]. rewrite E, IH. reflexivity.
Qed.

Section PrettyFormat.

Variable env : Env.
Variable rev : string.
Variable c : Git.Commit.

(** [git show --pretty=format:fmt -s rev] prints the expansion of
    [fmt] for the commit [c] that [rev] names. *)
Hypothesis shows : forall fmt,
  run env ["git"; "show"; "--pretty=format:" +:+ fmt; "-s"; rev] =
  Git.exited 0 (Git.expand (Git.placeholders c) 0 fmt).

Lemma git_show_format_str_expands fmt w :
  git_show_format_str env rev fmt w =
  (Ok (Git.expand (Git.placeholders c) 0 fmt), w).
Proof.
  unfold git_show_format_str. rewrite format_pretty.
  rewrite bind_run. unfold mret at 1, M_ret at 1.
  unfold check_output. rewrite shows. reflexivity.
Qed.

Lemma commit_subject_shown w :
  commit_subject env rev w = (Ok (Git.c_subject c), w).
Proof.
  unfold commit_subject. rewrite git_show_format_str_expands.
  simpl. rewrite append_empty. reflexivity.
Qed.

Lemma commiter_email_shown w :
  commiter_email env rev w = (Ok (Git.c_email c), w).
Proof.
  unfold commiter_email. rewrite git_show_format_str_expands.
  simpl. rewrite append_empty. reflexivity.
Qed.

Ltac by_expansion :=
  rewrite !append_cons; change (EmptyString +:+ ?s) with s;
  simpl Git.expand; rewrite expand_escape;
  simpl Git.expand; rewrite append_empty; reflexivity.

Lemma report_new_branch name :
  Git.expand (Git.placeholders c) 0
    ("Commiter: %cn <%ce>
Date: %cD
New branch: " +:+ escape_git_fmt_str name +:+ "
Commit: %H
Subject: %s
Notes:
%N") = commit_report c "New branch" name "Commit".
Proof. by_expansion. Qed.

Lemma report_forced_reset name :
  Git.expand (Git.placeholders c) 0
    ("Commiter: %cn <%ce>
Date: %cD
Branch: " +:+ escape_git_fmt_str name +:+ "
Reset to commit: %H
Subject: %s
Notes:
%N") = commit_report c "Branch" name "Reset to commit".
Proof. by_expansion. Qed.

Lemma report_forced_unknown name :
  Git.expand (Git.placeholders c) 0
    ("Commiter: %cn <%ce>
Date: %cD
Branch: " +:+ escape_git_fmt_str name +:+ "
Most recent commit: %H
Subject: %s
Notes:
%N") = commit_report c "Branch" name "Most recent commit".
Proof. by_expansion. Qed.

Variables (mailer : Mailer) (config : gmap string PyVal) (prefix : PyVal).
Hypothesis prefixed : config !! EMAILPREFIX = Some prefix.

Lemma new_branch_report name w :
  process_new_branch env rev name mailer config w =
  Mailer_send env mailer
    (py_str prefix +:+ "new branch: (" +:+ name +:+ ") at commit "
     +:+ short_hash rev +:+ ": " +:+ Git.c_subject c)
    (Git.c_email c)
    (commit_report c "New branch" name "Commit") w.
Proof.
  unfold process_new_branch.
  run_with (getitem_ok config EMAILPREFIX prefix w prefixed).
  run_with commit_subject_shown.
  rewrite format_new_branch. unfold mret at 1, M_ret at 1. cbv beta iota.
  run_with commiter_email_shown.
  rewrite format_new_branch_body. unfold mret at 1, M_ret at 1.
  cbv beta iota.
  run_with git_show_format_str_expands. rewrite report_new_branch.
  reflexivity.
Qed.

Lemma forced_reset_report old_rev name w :
  process_forced_reset env old_rev rev name mailer config w =
  Mailer_send env mailer
    (py_str prefix +:+ "(" +:+ name +:+ ") forced reset to commit "
     +:+ short_hash rev +:+ ": " +:+ Git.c_subject c)
    (Git.c_email c)
    (commit_report c "Branch" name "Reset to commit") w.
Proof.
  unfold process_forced_reset.
  run_with (getitem_ok config EMAILPREFIX prefix w prefixed).
  run_with commit_subject_shown.
  rewrite format_forced_reset. unfold mret at 1, M_ret at 1. cbv beta iota.
  rewrite format_forced_reset_body. unfold mret at 1, M_ret at 1.
  cbv beta iota.
  run_with git_show_format_str_expands. rewrite report_forced_reset.
  run_with commiter_email_shown.
  reflexivity.
Qed.

Lemma forced_unknown_report old_rev name w :
  process_forced_unknown env old_rev rev name mailer config w =
  Mailer_send env mailer
    (py_str prefix +:+ "(" +:+ name +:+ ") forced rewrite to commit "
     +:+ short_hash rev +:+ ": " +:+ Git.c_subject c)
    (Git.c_email c)
    (commit_report c "Branch" name "Most recent commit") w.
Proof.
  unfold process_forced_unknown.
  run_with (getitem_ok config EMAILPREFIX prefix w prefixed).
  run_with commit_subject_shown.
  rewrite format_forced_unknown. unfold mret at 1, M_ret at 1.
  cbv beta iota.
  rewrite format_forced_unknown_body. unfold mret at 1, M_ret at 1.
  cbv beta iota.
  run_with git_show_format_str_expands. rewrite report_forced_unknown.
  run_with commiter_email_shown.
  reflexivity.
Qed.

End PrettyFormat.

(** C8: the three handlers that put a branch name into a pretty format
    for [git show] escape it first.  When git expands the format for
    the commit [c] that [rev] names, the body handed to [Mailer.send]
    is the report on [c] with the name standing in it as it is, for
    every name, percent signs included. *)
Theorem percent_in_name_stays_literal (env : Env) (rev old_rev name : string)
    (c : Git.Commit) (mailer : Mailer) (config : gmap string PyVal)
    (prefix : PyVal) (w : World) :
  (forall fmt,
      run env ["git"; "show"; "--pretty=format:" +:+ fmt; "-s"; rev] =
      Git.exited 0 (Git.expand (Git.placeholders c) 0 fmt)) ->
  config !! EMAILPREFIX = Some prefix ->
  process_new_branch env rev name mailer config w =
  Mailer_send env mailer
    (py_str prefix +:+ "new branch: (" +:+ name +:+ ") at commit "
     +:+ short_hash rev +:+ ": " +:+ Git.c_subject c)
    (Git.c_email c) (commit_report c "New branch" name "Commit") w
  /\ process_forced_reset env old_rev rev name mailer config w =
     Mailer_send env mailer
       (py_str prefix +:+ "(" +:+ name +:+ ") forced reset to commit "
        +:+ short_hash rev +:+ ": " +:+ Git.c_subject c)
       (Git.c_email c) (commit_report c "Branch" name "Reset to commit") w
  /\ process_forced_unknown env old_rev rev name mailer config w =
     Mailer_send env mailer
       (py_str prefix +:+ "(" +:+ name +:+ ") forced rewrite to commit "
        +:+ short_hash rev +:+ ": " +:+ Git.c_subject c)
       (Git.c_email c) (commit_report c "Branch" name "Most recent commit") w.
Proof.
  intros Hshow Hprefix. split; [|split].
  - apply new_branch_report; assumption.
  - apply forced_reset_report; assumption.
  - apply forced_unknown_report; assumption.
Qed.

Lemma percent_in_name_stays_literal_witness :
  process_new_branch (Git.env Sample.full []) Sample.c1 "fix%s"
    Sample.mailer Sample.config Sample.start =
  Mailer_send (Git.env Sample.full []) Sample.mailer
    "[repo] new branch: (fix%s) at commit 1111111: first"
    "ada@example.org"
    "Commiter: Ada <ada@example.org>
Date: Mon, 1 Jan 2024 10:00:00 +0000
New branch: fix%s
Commit: 1111111111111111111111111111111111111111
Subject: first
Notes:
" Sample.start.
Proof.
  refine (proj1 (percent_in_name_stays_literal (Git.env Sample.full [])
                   Sample.c1 Sample.c4 "fix%s"
                   (Sample.commit Sample.c1 [] "first")
                   Sample.mailer Sample.config (PStr "[repo] ")
                   Sample.start _ _)).
  - intros fmt. reflexivity.
  - reflexivity.
Defined.

(** ** The mail prefix *)

Lemma bind_inv_ok {A B} (m : M A) (f : A -> M B) w b w' :
  (m ≫= f) w = (Ok b, w') ->
  exists a w1, m w = (Ok a, w1) /\ f a w1 = (Ok b, w').
Proof.
  rewrite bind_run. destruct (m w) as [[a|e] w1]; [eauto|discriminate].
Qed.

Lemma drop_last_line (v : string) : Py.drop_last (v +:+ nl) = v.
Proof.
  induction v as [|c v IH]; [reflexivity|].
  rewrite append_cons. cbn [Py.drop_last]. rewrite IH.
  destruct v; reflexivity.
Qed.

Ltac keys_differ := let E := fresh in intro E; vm_compute in E; discriminate E.

Section Prefix.

Variable env : Env.

Lemma optional_keeps var default type_ (config config' : gmap string PyVal)
    key w w' :
  optional env var default type_ config w = (Ok config', w') ->
  var <> key ->
  config' !! key = config !! key.
Proof.
  intros H Hne. unfold optional in H.
  apply bind_inv_ok in H as (v & w1 & _ & H).
  apply bind_inv_ok in H as (x & w2 & _ & H).
  injection H as <- _. apply lookup_insert_ne, Hne.
Qed.

Lemma required_keeps var type_ (config config' : gmap string PyVal)
    key w w' :
  required env var type_ config w = (Ok config', w') ->
  var <> key ->
  config' !! key = config !! key.
Proof.
  intros H Hne. unfold required in H.
  apply bind_inv_ok in H as (v & w1 & _ & H).
  destruct (Py.nonempty v); [|discriminate].
  apply bind_inv_ok in H as (x & w2 & _ & H).
  injection H as <- _. apply lookup_insert_ne, Hne.
Qed.

Lemma recipients_of_keeps var (config config' : gmap string PyVal)
    key w w' :
  recipients_of env var config w = (Ok config', w') ->
  var <> key ->
  config' !! key = config !! key.
Proof.
  intros H Hne. unfold recipients_of in H.
  apply bind_inv_ok in H as (v & w1 & _ & H).
  injection H as <- _. apply lookup_insert_ne, Hne.
Qed.

Lemma optional_str_run var default (config : gmap string PyVal) w :
  optional env var default str_ config w =
  (Ok (<[var := PStr (Py.drop_last
                        (stdout (run env ["git"; "config"; "--get"; var])))]>
         config), w).
Proof. reflexivity. Qed.

Lemma prefix_stored_run w :
  prefix_stored env w =
  let v := Py.drop_last
             (stdout (run env ["git"; "config"; "--get"; EMAILPREFIX])) in
  (Ok (if Py.nonempty v
          && negb (bool_decide (Py.last_char v = Some " "%char))
       then <[EMAILPREFIX := PStr (v +:+ " ")]>
              (<[EMAILPREFIX := PStr v]> ∅)
       else <[EMAILPREFIX := PStr v]> ∅), w).
Proof.
  unfold prefix_stored. rewrite bind_run, optional_str_run.
  unfold normalize_prefix. rewrite bind_run.
  rewrite (getitem_ok _ EMAILPREFIX _ _ (lookup_insert_eq _ _ _)).
  cbv zeta. destruct (_ && _); reflexivity.
Qed.

Lemma get_config_variables_prefix config w w' :
  get_config_variables env w = (Ok config, w') ->
  exists config0,
    prefix_stored env w = (Ok config0, w) /\
    config !! EMAILPREFIX = config0 !! EMAILPREFIX.
Proof.
  intros H. unfold get_config_variables in H.
  apply bind_inv_ok in H as (c1 & w1 & H1 & H).
  apply bind_inv_ok in H as (c2 & w2 & H2 & H).
  apply bind_inv_ok in H as (c3 & w3 & H3 & H).
  apply bind_inv_ok in H as (c4 & w4 & H4 & H).
  apply bind_inv_ok in H as (c5 & w5 & H5 & H).
  apply bind_inv_ok in H as (c6 & w6 & H6 & H).
  apply bind_inv_ok in H as (c7 & w7 & H7 & H).
  apply bind_inv_ok in H as (c8 & w8 & H8 & H).
  exists c2. split.
  - assert (Hps : prefix_stored env w = (Ok c2, w2)).
    { unfold prefix_stored. rewrite bind_run, H1. exact H2. }
    pose proof (prefix_stored_run w) as Hr. rewrite Hps in Hr.
    cbv zeta in Hr. injection Hr as _ ->. exact Hps.
  - rewrite (recipients_of_keeps _ _ _ EMAILPREFIX _ _ H) by keys_differ.
    rewrite (required_keeps _ _ _ _ EMAILPREFIX _ _ H8) by keys_differ.
    rewrite (required_keeps _ _ _ _ EMAILPREFIX _ _ H7) by keys_differ.
    rewrite (required_keeps _ _ _ _ EMAILPREFIX _ _ H6) by keys_differ.
    rewrite (required_keeps _ _ _ _ EMAILPREFIX _ _ H5) by keys_differ.
    rewrite (optional_keeps _ _ _ _ _ EMAILPREFIX _ _ H4) by keys_differ.
    rewrite (optional_keeps _ _ _ _ _ EMAILPREFIX _ _ H3) by keys_differ.
    reflexivity.
Qed.

End Prefix.

(** C6: let [v] be the configured mail prefix, the empty string when
    the key is not set.  The statements that store and normalise the
    prefix always succeed, and the prefix they store, which is also the
    prefix of every dictionary [get_config_variables] returns, is the
    empty string when [v] is empty, [v] followed by one space when [v]
    is not empty and does not end in a space, and [v] itself when [v]
    ends in a space. *)
Theorem mail_prefix_normalization (env : Env) (value : option string)
    (w : World) :
  stdout (run env ["git"; "config"; "--get"; EMAILPREFIX]) = printed value ->
  let v := default EmptyString value in
  let stored (p : string) :=
    (exists config0,
        prefix_stored env w = (Ok config0, w) /\
        config0 !! EMAILPREFIX = Some (PStr p)) /\
    (forall config w',
        get_config_variables env w = (Ok config, w') ->
        config !! EMAILPREFIX = Some (PStr p)) in
  (v = EmptyString -> stored EmptyString) /\
  (v <> EmptyString -> Py.last_char v <> Some " "%char -> stored (v +:+ " ")) /\
  (Py.last_char v = Some " "%char -> stored v).
Proof.
  intros Hout v stored.
  assert (Hv : Py.drop_last
                 (stdout (run env ["git"; "config"; "--get"; EMAILPREFIX])) = v).
  { rewrite Hout. subst v. destruct value as [x|]; [apply drop_last_line|].
    reflexivity. }
  clearbody v.
  assert (Hall : forall p config0,
             prefix_stored env w = (Ok config0, w) ->
             config0 !! EMAILPREFIX = Some (PStr p) -> stored p).
  { intros p config0 Hrun Hp. split; [eauto|].
    intros config w' Hc.
    destruct (get_config_variables_prefix env config w w' Hc)
      as (c0 & Hrun' & Heq).
    rewrite Heq. congruence. }
  pose proof (prefix_stored_run env w) as Hrun. cbv zeta in Hrun.
  rewrite Hv in Hrun. split; [|split].
  - intros E. rewrite E in Hrun. simpl in Hrun.
    eapply Hall; [exact Hrun|]. apply lookup_insert_eq.
  - intros Hne Hlast.
    assert (Py.nonempty v = true) as En by (destruct v; [congruence|reflexivity]).
    rewrite En, bool_decide_false in Hrun by exact Hlast. simpl in Hrun.
    eapply Hall; [exact Hrun|]. apply lookup_insert_eq.
  - intros Hlast.
    rewrite bool_decide_true, andb_false_r in Hrun by exact Hlast.
    eapply Hall; [exact Hrun|]. apply lookup_insert_eq.
Qed.

Lemma mail_prefix_normalization_witness :
  (exists config w',
      get_config_variables (Git.env Sample.full []) Sample.start
      = (Ok config, w')) /\
  (forall config w',
      get_config_variables (Git.env Sample.full []) Sample.start
      = (Ok config, w') ->
      config !! EMAILPREFIX = Some (PStr "[repo] ")).
Proof.
  split.
  - eexists. eexists. reflexivity.
  - refine (proj2 (proj1 (proj2
             (mail_prefix_normalization (Git.env Sample.full [])
                (Some "[repo]") Sample.start _)) _ _)).
    + reflexivity.
    + discriminate.
    + vm_compute. discriminate.
Defined.

(** ** The log file *)

Lemma git_config_get_ignores_default env name (d1 d2 : PyVal) :
  git_config_get env name d1 = git_config_get env name d2.
Proof. reflexivity. Qed.

(** C5: a repository in which [hooks.post-receive-logfile] is not set.
    [git_config_get] called with the default ["/dev/null"] returns the
    empty string, [get_config_variables] stores the empty string as the
    log path, and [main], which asks for the key without a default,
    tries to open the empty path: the run ends with the exception of
    [open], outside the handler, and nothing is logged or sent. *)
Theorem log_path_default_is_discarded :
  let env := Git.env Sample.bare
               [Sample.line Sample.c1 Sample.c4 "refs/heads/main"] in
  git_config_get env POST_RECEIVE_LOGFILE (PStr "/dev/null") Sample.start
  = (Ok EmptyString, Sample.start)
  /\ (exists config,
         get_config_variables env Sample.start = (Ok config, Sample.start) /\
         config !! POST_RECEIVE_LOGFILE = Some (PStr EmptyString))
  /\ main env Sample.start = (Raise (OSError EmptyString), Sample.start).
Proof.
  intros env. split; [reflexivity|]. split; [|reflexivity].
  eexists. split; reflexivity.
Qed.

(** C3, as stated, fails: the log file is opened before the handler is
    in place.  With [hooks.post-receive-logfile] set to a path the
    machine refuses to open, [main] ends with the exception of [open];
    nothing is written and no line is processed. *)
Lemma unopenable_log_escapes :
  main (Sample.locked Sample.full
          [Sample.line Sample.c1 Sample.c4 "refs/heads/main"]) Sample.start
  = (Raise (OSError "/var/log/hook.log"), Sample.start).
Proof. reflexivity. Qed.

(** C3, amended: once the log file is open, [main] returns normally
    whatever happens while the input is read, the configuration is
    resolved and the lines are processed.  When these statements raise
    [e] in world [w1], the handler appends the timestamp line and the
    trace of [e] to the log file, the file is closed, and nothing is
    raised again. *)
Theorem failures_after_open_are_logged (env : Env) (w w0 : World) :
  let path :=
    Py.drop_last
      (stdout (run env ["git"; "config"; "--get"; POST_RECEIVE_LOGFILE])) in
  open_a env path w = (Ok tt, w0) ->
  (exists w', main env w = (Ok tt, w')) /\
  (forall e w1,
      main_body env path w0 = (Raise e, w1) ->
      main env w =
      (Ok tt,
       {| trace := trace w1 ++ [EvWrite path (strftime env (ticks w1) +:+ nl);
                                EvWrite path (print_exc env e);
                                EvClose path];
          ticks := S (ticks w1) |})).
Proof.
  intros path Hopen.
  assert (Hmain : main env w =
            finally (try_except (main_body env path) (main_handler env path))
                    (do_emit (EvClose path)) w0).
  { unfold main, git_config_get. rewrite bind_run.
    unfold mret at 1, M_ret at 1. fold path.
    rewrite bind_run, Hopen. reflexivity. }
  rewrite Hmain. unfold finally, try_except. split.
  - destruct (main_body env path w0) as [[[]|e] w1]; eexists; reflexivity.
  - intros e w1 Hbody. rewrite Hbody. unfold main_handler, file_write.
    rewrite !bind_run. simpl. unfold emit. simpl.
    rewrite <- !app_assoc. reflexivity.
Qed.

Lemma failures_after_open_are_logged_witness :
  main (Git.env Sample.full ["only two" +:+ nl]) Sample.start =
  (Ok tt,
   {| trace := [EvOpen "/var/log/hook.log";
                EvWrite "/var/log/hook.log" ("2024-01-01 00:00:00" +:+ nl);
                EvWrite "/var/log/hook.log" "Traceback (most recent call last):";
                EvClose "/var/log/hook.log"];
      ticks := 1 |}).
Proof.
  pose (w0 := {| trace := [EvOpen "/var/log/hook.log"]; ticks := 0 |}).
  refine (proj2 (failures_after_open_are_logged
                   (Git.env Sample.full ["only two" +:+ nl])
                   Sample.start w0 _) (ValueError "unpack") w0 _).
  - reflexivity.
  - reflexivity.
Defined.

(** * Further properties *)

Ltac conjs := repeat match goal with |- _ /\ _ => split end.

(** ** Fields, tokens and final segments *)

Lemma fields_not_nil sep s : Py.fields sep s <> [].
Proof.
  destruct s as [|c r]; simpl; [discriminate|].
  destruct (sep c); [discriminate|]. destruct (Py.fields sep r); discriminate.
Qed.

Lemma fields_at_separator sep c rest :
  sep c = true ->
  Py.fields sep (String c rest) = EmptyString :: Py.fields sep rest.
Proof. intros H. simpl. rewrite H. reflexivity. Qed.

(** A run of code points free of separators joins the first field of
    what follows it. *)
Lemma fields_after_free sep t rest :
  free_of sep t = true ->
  exists w ws,
    Py.fields sep rest = w :: ws /\
    Py.fields sep (t +:+ rest) = (t +:+ w) :: ws.
Proof.
  induction t as [|c t IH]; intros Hfree.
  - destruct (Py.fields sep rest) as [|w ws] eqn:E.
    + destruct (fields_not_nil sep rest E).
    + exists w, ws. split; [reflexivity|]. exact E.
  - simpl in Hfree. apply andb_true_iff in Hfree as [Hc Ht].
    destruct (IH Ht) as (w & ws & E1 & E2). exists w, ws.
    split; [exact E1|]. rewrite append_cons. simpl.
    apply negb_true_iff in Hc. rewrite Hc, E2. reflexivity.
Qed.

Lemma free_of_nonempty_head p c r :
  free_of p (String c r) = true -> p c = false.
Proof.
  simpl. intros H. apply andb_true_iff in H as [H _].
  apply negb_true_iff, H.
Qed.

Lemma token_parts s :
  token s = true -> Py.nonempty s = true /\ free_of Py.is_space s = true.
Proof. unfold token. apply andb_true_iff. Qed.

Lemma split_after_token t rest :
  token t = true ->
  Py.split (t +:+ String " " rest) = t :: Py.split rest.
Proof.
  intros Ht. apply token_parts in Ht as [Hn Hf]. unfold Py.split.
  destruct (fields_after_free Py.is_space t (String " " rest) Hf)
    as (w & ws & E1 & E2).
  rewrite fields_at_separator in E1 by reflexivity.
  injection E1 as <- <-. rewrite E2, append_empty. simpl.
  rewrite Hn. reflexivity.
Qed.

Lemma split_last_token t :
  token t = true -> Py.split (t +:+ nl) = [t].
Proof.
  intros Ht. apply token_parts in Ht as [Hn Hf]. unfold Py.split.
  destruct (fields_after_free Py.is_space t nl Hf) as (w & ws & E1 & E2).
  change (Py.fields Py.is_space nl) with [EmptyString; EmptyString] in E1.
  injection E1 as <- <-. rewrite E2, append_empty. simpl.
  rewrite Hn. reflexivity.
Qed.

(** X1: a line made of tokens (non-empty, free of whitespace) separated
    by single spaces and ended by a newline parses into exactly these
    tokens, in order, however many there are. *)
Theorem parse_line_of_tokens (tokens : list string) :
  Forall (fun t => token t = true) tokens ->
  parse_post_receive_line (Py.join " " tokens +:+ nl) = tokens.
Proof.
  unfold parse_post_receive_line.
  induction tokens as [|t tokens IH]; intros H; [reflexivity|].
  inversion H as [|? ? Ht Hrest]; subst.
  destruct tokens as [|t' tokens].
  - apply split_last_token, Ht.
  - change (Py.join " " (t :: t' :: tokens))
      with (t +:+ " " +:+ Py.join " " (t' :: tokens)).
    rewrite !append_assoc. change (" " +:+ ?x) with (String " " x).
    rewrite split_after_token by exact Ht. rewrite IH by exact Hrest.
    reflexivity.
Qed.

Lemma parse_line_of_tokens_witness :
  parse_post_receive_line
    (Py.join " " [Sample.c1; Sample.c4; "refs/heads/main"] +:+ nl)
  = [Sample.c1; Sample.c4; "refs/heads/main"].
Proof.
  apply (parse_line_of_tokens [Sample.c1; Sample.c4; "refs/heads/main"]).
  repeat constructor.
Defined.

Lemma fields_of_free sep t :
  free_of sep t = true -> Py.fields sep t = [t].
Proof.
  intros H. destruct (fields_after_free sep t EmptyString H)
    as (w & ws & E1 & E2).
  injection E1 as <- <-. rewrite !append_empty in E2. exact E2.
Qed.

Lemma last_char_cons c s :
  s <> EmptyString -> Py.last_char (String c s) = Py.last_char s.
Proof. destruct s; [congruence|reflexivity]. Qed.

Lemma last_char_split s c :
  Py.last_char s = Some c -> exists d, s = d +:+ String c EmptyString.
Proof.
  induction s as [|a s IH]; [discriminate|].
  destruct s as [|b s].
  - intros [= ->]. exists EmptyString. reflexivity.
  - intros H. destruct (IH H) as [d Hd]. exists (String a d).
    rewrite append_cons, <- Hd. reflexivity.
Qed.

(** The last field of a string is free of separators; either it is the
    whole string, or what stands before it ends in a separator. *)
Lemma last_field_spec sep s :
  match Py.fields sep s with
  | [w] => s = w /\ free_of sep w = true
  | l =>
      exists dir c,
        s = dir +:+ List.last l EmptyString /\
        Py.last_char dir = Some c /\ sep c = true /\
        free_of sep (List.last l EmptyString) = true
  end.
Proof.
  induction s as [|a s IH]; [split; reflexivity|].
  cbn [Py.fields]. destruct (sep a) eqn:Ea.
  - destruct (Py.fields sep s) as [|w [|w2 ws]] eqn:E.
    + destruct (fields_not_nil sep s E).
    + destruct IH as [-> Hf]. exists (String a EmptyString), a.
      conjs; [reflexivity|reflexivity|exact Ea|exact Hf].
    + destruct IH as (dir & c & Hs & Hl & Hc & Hf).
      exists (String a dir), c. conjs.
      * rewrite append_cons. f_equal. exact Hs.
      * rewrite last_char_cons; [exact Hl|]. intros ->. discriminate.
      * exact Hc.
      * exact Hf.
  - destruct (Py.fields sep s) as [|w [|w2 ws]] eqn:E.
    + destruct (fields_not_nil sep s E).
    + destruct IH as [-> Hf]. split; [reflexivity|].
      simpl. rewrite Ea, Hf. reflexivity.
    + destruct IH as (dir & c & Hs & Hl & Hc & Hf).
      exists (String a dir), c. conjs.
      * rewrite append_cons. f_equal. exact Hs.
      * rewrite last_char_cons; [exact Hl|]. intros ->. discriminate.
      * exact Hc.
      * exact Hf.
Qed.

Lemma ref_type_name_snd ref :
  snd (ref_type_name ref) = Py.last_field (Py.split_on "/" ref).
Proof.
  unfold ref_type_name.
  destruct (Py.startswith ref "refs/heads/"); [reflexivity|].
  destruct (Py.startswith ref "refs/tags/"); reflexivity.
Qed.

(** X2: whatever the kind of a ref, the short name [ref_type_name]
    gives holds no slash, and the ref is either that name alone or a
    path ending in a slash followed by the name. *)
Theorem short_name_is_final_segment (ref : string) :
  let name := snd (ref_type_name ref) in
  free_of (Ascii.eqb "/") name = true /\
  (ref = name \/ exists dir, ref = dir +:+ "/" +:+ name).
Proof.
  cbv zeta. rewrite ref_type_name_snd.
  unfold Py.last_field, Py.split_on.
  pose proof (last_field_spec (Ascii.eqb "/") ref) as H.
  destruct (Py.fields (Ascii.eqb "/") ref) as [|w [|w2 ws]] eqn:E.
  - destruct (fields_not_nil _ _ E).
  - destruct H as [-> Hf]. split; [exact Hf|]. left. reflexivity.
  - destruct H as (dir & c & Hs & Hl & Hc & Hf). split; [exact Hf|].
    right. apply Ascii.eqb_eq in Hc. subst c.
    apply last_char_split in Hl as [d ->]. exists d.
    rewrite Hs at 1. rewrite append_assoc. reflexivity.
Qed.

(** X3: a branch ref and a tag ref built from a name without slashes
    are recognised as such and give the name back. *)
Theorem ref_of_name_round_trip (name : string) :
  free_of (Ascii.eqb "/") name = true ->
  ref_type_name ("refs/heads/" +:+ name) = ("branch", name) /\
  ref_type_name ("refs/tags/" +:+ name) = ("tag", name).
Proof.
  intros Hf. unfold ref_type_name, Py.last_field, Py.split_on.
  split.
  - change (Py.startswith ("refs/heads/" +:+ name) "refs/heads/") with true.
    cbv iota. rewrite !append_cons. change (EmptyString +:+ name) with name.
    simpl Py.fields. rewrite (fields_of_free _ _ Hf). reflexivity.
  - change (Py.startswith ("refs/tags/" +:+ name) "refs/heads/") with false.
    change (Py.startswith ("refs/tags/" +:+ name) "refs/tags/") with true.
    cbv iota. rewrite !append_cons. change (EmptyString +:+ name) with name.
    simpl Py.fields. rewrite (fields_of_free _ _ Hf). reflexivity.
Qed.

Lemma ref_of_name_round_trip_witness :
  ref_type_name ("refs/heads/" +:+ "main") = ("branch", "main") /\
  ref_type_name ("refs/tags/" +:+ "main") = ("tag", "main").
Proof. apply (ref_of_name_round_trip "main"). reflexivity. Defined.

(** ** Short ids and configuration values *)

Lemma take_prefix n s :
  exists rest,
    s = Py.take n s +:+ rest /\
    String.length (Py.take n s) = Nat.min n (String.length s).
Proof.
  revert s. induction n as [|n IH]; intros s.
  - exists s. split; reflexivity.
  - destruct s as [|c s]; [exists EmptyString; split; reflexivity|].
    destruct (IH s) as (rest & Hs & Hl). exists rest. split.
    + cbn [Py.take]. rewrite append_cons. f_equal. exact Hs.
    + cbn [Py.take String.length Nat.min]. f_equal. exact Hl.
Qed.

(** X4: the short hash of an id is the id cut after seven code points:
    a prefix of the id, seven long unless the id itself is shorter, in
    which case it is the whole id. *)
Theorem short_hash_is_prefix (rev : string) :
  exists rest,
    rev = short_hash rev +:+ rest /\
    String.length (short_hash rev) = Nat.min 7 (String.length rev).
Proof. apply take_prefix. Qed.

(** X5: when [git config --get] prints the value of a key followed by
    a newline, [git_config_get] returns that value, whatever code
    points it holds; when git prints nothing because the key is not
    set, it returns the empty string, whatever default was passed. *)
Theorem git_config_get_value (env : Env) (name : string)
    (value : option string) (fallback : PyVal) (w : World) :
  stdout (run env ["git"; "config"; "--get"; name]) = printed value ->
  git_config_get env name fallback w = (Ok (default EmptyString value), w).
Proof.
  intros H. unfold git_config_get. rewrite H.
  destruct value as [v|]; simpl; [rewrite drop_last_line|]; reflexivity.
Qed.

Lemma git_config_get_value_witness :
  git_config_get (Git.env Sample.full []) "hooks.emailprefix"
    (PStr EmptyString) Sample.start = (Ok "[repo]", Sample.start)
  /\ git_config_get (Git.env Sample.bare []) "hooks.emailprefix"
       (PStr "unused") Sample.start = (Ok EmptyString, Sample.start).
Proof.
  split.
  - apply (git_config_get_value (Git.env Sample.full []) "hooks.emailprefix"
             (Some "[repo]")). reflexivity.
  - apply (git_config_get_value (Git.env Sample.bare []) "hooks.emailprefix"
             None). reflexivity.
Defined.

(** ** The mailing list *)

Lemma delimiter_none c r :
  is_delimiter c = false -> Py.delimiter (String c r) = O.
Proof.
  unfold is_delimiter. intros H. apply orb_false_iff in H as [Hs Hc].
  unfold Py.delimiter.
  assert (Py.spaces (String c r) = O) as ->.
  { simpl. destruct c as [[] [] [] [] [] [] [] []]; try reflexivity.
    discriminate Hs. }
  simpl. destruct c as [[] [] [] [] [] [] [] []]; try reflexivity.
  discriminate Hc.
Qed.

Lemma re_split_not_nil k s : Py.re_split_from k s <> [].
Proof.
  revert k. induction s as [|c s IH]; intros k; simpl; [discriminate|].
  destruct k; [|apply IH].
  destruct (Py.delimiter (String c s)); [|discriminate].
  destruct (Py.re_split_from 0 s); discriminate.
Qed.

Lemma re_split_after_free t rest :
  free_of is_delimiter t = true ->
  exists w ws,
    Py.re_split_from 0 rest = w :: ws /\
    Py.re_split_from 0 (t +:+ rest) = (t +:+ w) :: ws.
Proof.
  induction t as [|c t IH]; intros Hfree.
  - destruct (Py.re_split_from 0 rest) as [|w ws] eqn:E.
    + destruct (re_split_not_nil 0 rest E).
    + exists w, ws. split; [reflexivity|exact E].
  - simpl in Hfree. apply andb_true_iff in Hfree as [Hc Ht].
    apply negb_true_iff in Hc.
    destruct (IH Ht) as (w & ws & E1 & E2). exists w, ws.
    split; [exact E1|]. rewrite append_cons. cbn [Py.re_split_from].
    rewrite (delimiter_none _ _ Hc), E2. reflexivity.
Qed.

Lemma address_parts s :
  address s = true ->
  Py.nonempty s = true /\ free_of is_delimiter s = true.
Proof. unfold address. apply andb_true_iff. Qed.

Lemma address_head s :
  address s = true ->
  exists c r, s = String c r /\ is_delimiter c = false.
Proof.
  intros H. apply address_parts in H as [Hn Hf].
  destruct s as [|c r]; [discriminate|]. exists c, r.
  split; [reflexivity|]. exact (free_of_nonempty_head _ _ _ Hf).
Qed.

Lemma re_split_comma_space c r :
  is_delimiter c = false ->
  Py.re_split_from 0 (String "," (String " " (String c r))) =
  EmptyString :: Py.re_split_from 0 (String c r).
Proof.
  intros H. unfold is_delimiter in H. apply orb_false_iff in H as [Hs _].
  cbn [Py.re_split_from].
  assert (Py.delimiter (String "," (String " " (String c r))) = 2%nat) as ->.
  { unfold Py.delimiter. simpl.
    destruct c as [[] [] [] [] [] [] [] []]; try reflexivity.
    discriminate Hs. }
  reflexivity.
Qed.

Lemma filter_kept {A} (f : A -> bool) x l :
  f x = true -> List.filter f (x :: l) = x :: List.filter f l.
Proof. intros H. simpl. rewrite H. reflexivity. Qed.

(** X6: the recipients header round-trips.  Joining addresses (not
    empty, free of spaces and commas) with a comma and a space, as
    [Mailer.send] does for [To], and reading the result back the way
    [get_config_variables] reads [hooks.mailinglist], gives the same
    addresses in the same order. *)
Theorem recipients_round_trip (rs : list string) :
  Forall (fun r => address r = true) rs ->
  List.filter Py.nonempty (Py.re_split_recipients (Py.join ", " rs)) = rs.
Proof.
  unfold Py.re_split_recipients.
  induction rs as [|r rs IH]; intros H; [reflexivity|].
  inversion H as [|? ? Hr Hrest]; subst.
  pose proof (address_parts r Hr) as [Hn Hf].
  destruct rs as [|r' rs].
  - cbn [Py.join].
    destruct (re_split_after_free r EmptyString Hf) as (w & ws & E1 & E2).
    injection E1 as <- <-. rewrite !append_empty in E2. rewrite E2.
    simpl. rewrite Hn. reflexivity.
  - change (Py.join ", " (r :: r' :: rs))
      with (r +:+ ", " +:+ Py.join ", " (r' :: rs)).
    assert (Hhead : exists c t, Py.join ", " (r' :: rs) = String c t /\
                                is_delimiter c = false).
    { inversion Hrest as [|? ? Hr' _]; subst.
      destruct (address_head r' Hr') as (c & t & -> & Hc).
      destruct rs; [exists c, t; split; [reflexivity|exact Hc]|].
      eexists c, _. split; [|exact Hc]. cbn [Py.join].
      rewrite append_cons. reflexivity. }
    destruct Hhead as (c & t & Ej & Hc).
    specialize (IH Hrest). rewrite Ej in IH |- *.
    change (", " +:+ String c t) with (String "," (String " " (String c t))).
    destruct (re_split_after_free r
                (String "," (String " " (String c t))) Hf)
      as (w & ws & E1 & E2).
    rewrite (re_split_comma_space c t Hc) in E1. injection E1 as <- <-.
    rewrite E2, append_empty, (filter_kept _ _ _ Hn). f_equal. exact IH.
Qed.

Lemma recipients_round_trip_witness :
  List.filter Py.nonempty
    (Py.re_split_recipients
       (Py.join ", " ["dev@example.org"; "ops@example.org"]))
  = ["dev@example.org"; "ops@example.org"].
Proof.
  apply (recipients_round_trip ["dev@example.org"; "ops@example.org"]).
  repeat constructor.
Defined.

(** ** What a computation appends to the trace *)

Lemma yields_silent {A} (Q : list Event -> Prop) (m : M A) :
  silent m -> Q [] -> yields Q m.
Proof.
  intros Hm Hq w. exists []. rewrite app_nil_r. split; [apply Hm|exact Hq].
Qed.

Lemma yields_after_silent {A B} (Q : list Event -> Prop) (m : M A)
    (f : A -> M B) :
  silent m -> Q [] -> (forall a, yields Q (f a)) -> yields Q (m ≫= f).
Proof.
  intros Hm Hq Hf w. rewrite bind_run. specialize (Hm w).
  destruct (m w) as [[a|e] w1]; simpl in Hm.
  - destruct (Hf a w1) as (evs & Ht & He). exists evs.
    rewrite Ht, Hm. split; [reflexivity|exact He].
  - exists []. rewrite app_nil_r. split; [exact Hm|exact Hq].
Qed.

Lemma yields_bind {A B} (Q : list Event -> Prop) (m : M A) (f : A -> M B) :
  (forall x y, Q x -> Q y -> Q (x ++ y)%list) ->
  yields Q m -> (forall a, yields Q (f a)) -> yields Q (m ≫= f).
Proof.
  intros Happ Hm Hf w. rewrite bind_run.
  destruct (Hm w) as (e1 & H1 & Q1).
  destruct (m w) as [[a|e] w1]; simpl in H1.
  - destruct (Hf a w1) as (e2 & H2 & Q2). exists (e1 ++ e2)%list.
    rewrite H2, H1, app_assoc. split; [reflexivity|auto].
  - exists e1. split; [exact H1|exact Q1].
Qed.

Lemma yields_weaken {A} (P Q : list Event -> Prop) (m : M A) :
  (forall evs, P evs -> Q evs) -> yields P m -> yields Q m.
Proof.
  intros H Hm w. destruct (Hm w) as (evs & Ht & Hp). eauto.
Qed.

Lemma yields_emit (Q : list Event -> Prop) ev :
  Q [ev] -> yields Q (do_emit ev).
Proof. intros H w. exists [ev]. split; [reflexivity|exact H]. Qed.

Lemma yields_for_each {A} (Q : list Event -> Prop) (l : list A)
    (body : A -> M unit) :
  Q [] -> (forall x y, Q x -> Q y -> Q (x ++ y)%list) ->
  (forall x, yields Q (body x)) -> yields Q (for_each l body).
Proof.
  intros Hnil Happ Hb. induction l as [|x l IH]; simpl.
  - apply yields_silent; [apply silent_ret|exact Hnil].
  - apply yields_bind; [exact Happ|apply Hb|intros _; exact IH].
Qed.

(** ** The SMTP session of [Mailer.send] *)

Section Session.

Variable env : Env.
Variable self : Mailer.
Variables subject reply_to message : string.

Let email : EmailMessage := email_of self subject reply_to message.
Let connect : Event := EvConnect (smtp_host self) (smtp_port self).
Let login : Event := EvLogin (sender self) (sender_password self).

Lemma send_run w :
  recipients self <> [] ->
  Mailer_send env self subject reply_to message w =
  match smtp_connect env (smtp_host self) (smtp_port self) with
  | Some e => (Raise e, emit connect w)
  | None =>
      match smtp_login env (sender self) (sender_password self) with
      | Some e => (Raise e, emit EvQuit (emit login (emit connect w)))
      | None =>
          let w' := emit EvQuit (emit (EvSendMessage email)
                                   (emit login (emit connect w))) in
          match smtp_send_message env email with
          | Some e => (Raise e, w')
          | None => (Ok tt, w')
          end
      end
  end.
Proof.
  intros Hne.
  assert (Hsend : Mailer_send env self subject reply_to message =
            (do_emit connect;;
             attempt (smtp_connect env (smtp_host self) (smtp_port self));;
             finally
               (do_emit login;;
                attempt (smtp_login env (sender self) (sender_password self));;
                do_emit (EvSendMessage email);;
                attempt (smtp_send_message env email))
               (do_emit EvQuit))).
  { unfold Mailer_send, email, email_of, connect, login.
    generalize (Py.join ", " (recipients self)). intros joined.
    destruct (recipients self); [congruence|reflexivity]. }
  rewrite Hsend. rewrite !bind_run. cbn [do_emit].
  destruct (smtp_connect env (smtp_host self) (smtp_port self)) as [e|];
    [reflexivity|].
  cbn [attempt mret M_ret]. unfold finally. rewrite !bind_run.
  cbn [do_emit].
  destruct (smtp_login env (sender self) (sender_password self)) as [e|];
    [reflexivity|].
  cbn [attempt mret M_ret]. rewrite !bind_run. cbn [do_emit].
  destruct (smtp_send_message env email) as [e|]; reflexivity.
Qed.

Lemma send_one_session :
  yields (one_session self) (Mailer_send env self subject reply_to message).
Proof.
  intros w. destruct (recipients self) as [|r rs] eqn:E.
  - exists []. rewrite send_returns_at_once by exact E.
    rewrite app_nil_r. split; [reflexivity|].
    split; [constructor|]. split; [simpl; lia|constructor].
  - rewrite send_run by congruence. cbv zeta.
    assert (Hmail : from_mailer self email) by (split; reflexivity).
    destruct (smtp_connect env _ _) as [e|].
    { exists [connect]. split; [reflexivity|].
      split; [repeat constructor|]. split; [simpl; lia|constructor]. }
    destruct (smtp_login env _ _) as [e|].
    { exists [connect; login; EvQuit]. split.
      - simpl. rewrite <- !app_assoc. reflexivity.
      - split; [repeat constructor|]. split; [simpl; lia|constructor]. }
    exists [connect; login; EvSendMessage email; EvQuit].
    assert (Hq : one_session self
                   [connect; login; EvSendMessage email; EvQuit]).
    { split; [repeat constructor|]. split; [simpl; lia|].
      repeat constructor; reflexivity. }
    destruct (smtp_send_message env email) as [e|]; (split; [|exact Hq]);
      simpl; rewrite <- !app_assoc; reflexivity.
Qed.

End Session.



(** ** One session per line *)

Lemma one_session_nil self : one_session self [].
Proof. split; [constructor|]. split; [simpl; lia|constructor]. Qed.

Lemma silent_commit_subject env rev : silent (commit_subject env rev).
Proof. apply silent_git_show_format_str. Qed.

Lemma silent_commiter_email env rev : silent (commiter_email env rev).
Proof. apply silent_git_show_format_str. Qed.

#[export] Hint Resolve silent_commit_subject silent_commiter_email : silent.

Ltac then_send :=
  repeat match goal with
    | |- yields _ (Mailer_send _ _ _ _ _) => apply send_one_session
    | |- yields _ (_ ≫= _) =>
        apply yields_after_silent;
        [solve [auto with silent] | apply one_session_nil | intros ?]
    end.

Section Lines.

Variable env : Env.
Variable mailer : Mailer.
Variable config : gmap string PyVal.

Lemma new_branch_one_session rev name :
  yields (one_session mailer) (process_new_branch env rev name mailer config).
Proof. unfold process_new_branch. then_send. Qed.

Lemma delete_branch_one_session rev name :
  yields (one_session mailer)
    (process_delete_branch env rev name mailer config).
Proof. unfold process_delete_branch. then_send. Qed.

Lemma new_tag_one_session rev name :
  yields (one_session mailer) (process_new_tag env rev name mailer config).
Proof. unfold process_new_tag. then_send. Qed.

Lemma delete_tag_one_session rev name :
  yields (one_session mailer) (process_delete_tag env rev name mailer config).
Proof. unfold process_delete_tag. then_send. Qed.

Lemma new_commits_one_session old_rev new_rev name :
  yields (one_session mailer)
    (process_new_commits env old_rev new_rev name mailer config).
Proof.
  unfold process_new_commits.
  apply yields_after_silent;
    [auto with silent | apply one_session_nil | intros n].
  apply yields_after_silent; [|apply one_session_nil|intros ?; then_send].
  destruct (n =? 1); [silent_steps|]. destruct (0 <? n); silent_steps.
Qed.

Lemma forced_reset_one_session old_rev new_rev name :
  yields (one_session mailer)
    (process_forced_reset env old_rev new_rev name mailer config).
Proof. unfold process_forced_reset. then_send. Qed.

Lemma forced_unknown_one_session old_rev new_rev name :
  yields (one_session mailer)
    (process_forced_unknown env old_rev new_rev name mailer config).
Proof. unfold process_forced_unknown. then_send. Qed.

Lemma commit_range_one_session old_rev new_rev name :
  yields (one_session mailer)
    (process_commit_range env old_rev new_rev name mailer config).
Proof.
  unfold process_commit_range.
  apply yields_after_silent;
    [auto with silent | apply one_session_nil | intros []].
  - apply new_commits_one_session.
  - apply yields_after_silent;
      [auto with silent | apply one_session_nil | intros []].
    + apply forced_reset_one_session.
    + apply forced_unknown_one_session.
Qed.

Lemma line_one_session line :
  yields (one_session mailer) (post_receive_line env mailer config line).
Proof.
  unfold post_receive_line.
  destruct (parse_post_receive_line line) as [|a [|b [|c [|d l]]]];
    try (apply yields_silent; [apply silent_raise|apply one_session_nil]).
  destruct (ref_type_name c) as [ref_type name].
  repeat match goal with |- context [if ?c then _ else _] => destruct c end;
    match goal with
    | |- yields _ (process_new_branch _ _ _ _ _) =>
        apply new_branch_one_session
    | |- yields _ (process_delete_branch _ _ _ _ _) =>
        apply delete_branch_one_session
    | |- yields _ (process_commit_range _ _ _ _ _ _) =>
        apply commit_range_one_session
    | |- yields _ (process_new_tag _ _ _ _ _) => apply new_tag_one_session
    | |- yields _ (process_delete_tag _ _ _ _ _) =>
        apply delete_tag_one_session
    | |- _ => apply yields_silent; [apply silent_ret|apply one_session_nil]
    end.
Qed.

End Lines.

Lemma mails_app (a b : list Event) : mails (a ++ b) = (mails a ++ mails b)%list.
Proof. apply omap_app. Qed.

Lemma sent_mails w : sent w = mails (trace w).
Proof. reflexivity. Qed.

(** X8: a run of [post_receive] only appends to the trace, and what it
    appends are events of SMTP sessions: it opens, writes and closes no
    file.  It hands at most one email per input line to the server, and
    each of them carries the sender and the recipients of the mailer. *)
Theorem at_most_one_mail_per_line (env : Env) (mailer : Mailer)
    (lines : list string) (config : gmap string PyVal) (w : World) :
  exists evs,
    trace (snd (post_receive env mailer lines config w)) =
      (trace w ++ evs)%list /\
    Forall is_smtp evs /\
    (List.length (mails evs) <= List.length lines)%nat /\
    Forall (from_mailer mailer) (mails evs).
Proof.
  unfold post_receive. revert w.
  induction lines as [|line lines IH]; intros w.
  - exists []. rewrite app_nil_r. conjs; constructor.
  - cbn [for_each]. rewrite bind_run.
    destruct (line_one_session env mailer config line w)
      as (e1 & H1 & Hs1 & Hn1 & Hf1).
    destruct (post_receive_line env mailer config line w) as [[[]|e] w1];
      simpl in H1.
    + destruct (IH w1) as (e2 & H2 & Hs2 & Hn2 & Hf2).
      exists (e1 ++ e2)%list. rewrite H2, H1, app_assoc, mails_app.
      conjs.
      * reflexivity.
      * apply Forall_app; split; assumption.
      * rewrite length_app. simpl. lia.
      * apply Forall_app; split; assumption.
    + exists e1. conjs; try assumption. simpl. lia.
Qed.

(** X9: the lines are processed one after the other, each starting
    in the world the one before left.  When the lines of a first batch
    raise, the run ends there, with what that batch did to the world
    kept, and no line of the second batch is looked at. *)
Theorem post_receive_in_sequence (env : Env) (mailer : Mailer)
    (first second : list string) (config : gmap string PyVal) (w : World) :
  post_receive env mailer (first ++ second) config w =
  match post_receive env mailer first config w with
  | (Ok _, w') => post_receive env mailer second config w'
  | (Raise e, w') => (Raise e, w')
  end.
Proof.
  unfold post_receive. rewrite for_each_app.
  destruct (for_each first _ w) as [[[]|e] w']; reflexivity.
Qed.

(** X10: a line whose ref lies neither under [refs/heads/] nor under
    [refs/tags/] is passed over: no git query is needed, nothing is
    raised, and the world stays as it is. *)
Theorem unknown_ref_is_passed_over (env : Env) (mailer : Mailer)
    (config : gmap string PyVal) (line old_rev new_rev ref_name : string)
    (rest : list string) (w : World) :
  parse_post_receive_line line = [old_rev; new_rev; ref_name] ->
  Py.startswith ref_name "refs/heads/" = false ->
  Py.startswith ref_name "refs/tags/" = false ->
  post_receive env mailer (line :: rest) config w =
  post_receive env mailer rest config w.
Proof.
  intros Hp Hh Ht. unfold post_receive. cbn [for_each]. rewrite bind_run.
  unfold post_receive_line, ref_type_name. rewrite Hp, Hh, Ht. reflexivity.
Qed.

Lemma unknown_ref_is_passed_over_witness :
  post_receive (Sample.locked Sample.bare []) Sample.mailer
    [Sample.line Sample.c1 Sample.c2 "refs/notes/commits"] ∅ Sample.start
  = (Ok tt, Sample.start).
Proof.
  apply (unknown_ref_is_passed_over (Sample.locked Sample.bare [])
           Sample.mailer ∅ _ Sample.c1 Sample.c2 "refs/notes/commits" []);
    reflexivity.
Defined.

(** X11: when the first ancestry check of a branch update runs over
    its second, or ends with a status other than zero and one, the
    update raises [TimeoutExpired] or the exception of
    [is_descendant_commit]; no handler runs and the world stays as it
    is, so nothing is sent. *)
Theorem ancestry_failure_is_fatal (env : Env) (old_rev new_rev name : string)
    (mailer : Mailer) (config : gmap string PyVal) (w : World) :
  let argv := ["git"; "merge-base"; "--is-ancestor"; old_rev; new_rev] in
  let p := run env argv in
  (over_one_second p = true ->
   process_commit_range env old_rev new_rev name mailer config w =
   (Raise (TimeoutExpired argv), w)) /\
  (over_one_second p = false -> returncode p <> 0 -> returncode p <> 1 ->
   process_commit_range env old_rev new_rev name mailer config w =
   (Raise (Exception_ "is_descendant_commit error"), w)).
Proof.
  intros argv p. unfold process_commit_range, is_descendant_commit.
  fold argv. fold p. split.
  - intros Ht. rewrite bind_run, Ht. reflexivity.
  - intros Ht H0 H1. rewrite bind_run, Ht.
    apply Z.eqb_neq in H0, H1. rewrite H0, H1. reflexivity.
Qed.

Lemma ancestry_failure_is_fatal_witness :
  process_commit_range (Git.env Sample.full []) "feedbeef" Sample.c2 "main"
    Sample.mailer Sample.config Sample.start
  = (Raise (Exception_ "is_descendant_commit error"), Sample.start).
Proof.
  apply (proj2 (ancestry_failure_is_fatal (Git.env Sample.full [])
                  "feedbeef" Sample.c2 "main" Sample.mailer Sample.config
                  Sample.start)).
  - reflexivity.
  - vm_compute. discriminate.
  - vm_compute. discriminate.
Defined.

(** ** The messages for deletions and tags *)

Lemma format_delete_branch (p b : string) :
  format "{}delete branch: ({})" [p; b] =
  mret (p +:+ "delete branch: (" +:+ b +:+ ")").
Proof. unfold format, Py.format. simpl. reflexivity. Qed.

Lemma format_delete_tag (p b : string) :
  format "{}delete tag: ({})" [p; b] =
  mret (p +:+ "delete tag: (" +:+ b +:+ ")").
Proof. unfold format, Py.format. simpl. reflexivity. Qed.

Lemma format_new_tag (p b h s : string) :
  format "{}new tag: ({}) at commit {}: {}" [p; b; h; s] =
  mret (p +:+ "new tag: (" +:+ b +:+ ") at commit " +:+ h +:+ ": " +:+ s).
Proof. by_format. Qed.

Lemma format_deleted_branch_body (now name : string) :
  format "Date: {}
Deleted branch: {}" [now; name] =
  mret ("Date: " +:+ now +:+ nl +:+ "Deleted branch: " +:+ name).
Proof. by_format. Qed.

Lemma format_deleted_tag_body (now name : string) :
  format "Date: {}
Deleted tag: {}" [now; name] =
  mret ("Date: " +:+ now +:+ nl +:+ "Deleted tag: " +:+ name).
Proof. by_format. Qed.

Lemma format_target (rev : string) :
  format "{}^{{commit}}" [rev] = mret (rev +:+ "^{commit}").
Proof. unfold format, Py.format. simpl. reflexivity. Qed.

Lemma ret_bind {A B} (a : A) (f : A -> M B) (w : World) :
  (mret a ≫= f) w = f a w.
Proof. reflexivity. Qed.

Ltac returned := rewrite ret_bind; cbv beta iota.

(** X12: deleting a branch.  The reply-to address is the committer of
    the old id, the only id the line still has; the subject is the
    prefix followed by [delete branch: (name)]; the body gives the date
    read from the clock once and the name as it is, percent signs and
    braces included, since no git format is involved. *)
Theorem delete_branch_message (env : Env) (rev name : string)
    (mailer : Mailer) (config : gmap string PyVal) (w : World)
    (prefix : PyVal) (reply : string) :
  config !! EMAILPREFIX = Some prefix ->
  commiter_email env rev w = (Ok reply, w) ->
  process_delete_branch env rev name mailer config w =
  Mailer_send env mailer
    (py_str prefix +:+ "delete branch: (" +:+ name +:+ ")") reply
    ("Date: " +:+ formatdate env (ticks w) +:+ nl +:+
     "Deleted branch: " +:+ name)
    (tick w).
Proof.
  intros Hk Hr. unfold process_delete_branch.
  run_with (getitem_ok config EMAILPREFIX prefix w Hk).
  rewrite format_delete_branch. returned.
  run_with Hr. rewrite bind_run. unfold email_formatdate at 1.
  cbv beta iota. rewrite format_deleted_branch_body. returned.
  reflexivity.
Qed.

Lemma delete_branch_message_witness :
  process_delete_branch (Git.env Sample.full []) Sample.c4 "to{p}%ic"
    Sample.mailer Sample.config Sample.start =
  Mailer_send (Git.env Sample.full []) Sample.mailer
    "[repo] delete branch: (to{p}%ic)" "ada@example.org"
    ("Date: Mon, 01 Jan 2024 00:00:00 +0000" +:+ nl +:+
     "Deleted branch: to{p}%ic")
    (tick Sample.start).
Proof.
  apply (delete_branch_message (Git.env Sample.full []) Sample.c4 "to{p}%ic"
           Sample.mailer Sample.config Sample.start (PStr "[repo] ")
           "ada@example.org"); reflexivity.
Defined.

(** X13: a new tag.  The tag is first resolved to its commit with
    [rev^{commit}]; subject and reply-to are taken from that commit
    (short hash, subject line, committer), and the body is what
    [git show] prints for the tag itself. *)
Theorem new_tag_message (env : Env) (rev name : string)
    (mailer : Mailer) (config : gmap string PyVal) (w : World)
    (prefix : PyVal) (target subj reply body : string) :
  config !! EMAILPREFIX = Some prefix ->
  git_show_format_str env (rev +:+ "^{commit}") "%H" w = (Ok target, w) ->
  commit_subject env target w = (Ok subj, w) ->
  commiter_email env target w = (Ok reply, w) ->
  git_show env rev w = (Ok body, w) ->
  process_new_tag env rev name mailer config w =
  Mailer_send env mailer
    (py_str prefix +:+ "new tag: (" +:+ name +:+ ") at commit "
     +:+ short_hash target +:+ ": " +:+ subj) reply body w.
Proof.
  intros Hk Ht Hs Hr Hb. unfold process_new_tag.
  rewrite format_target. returned. run_with Ht.
  run_with (getitem_ok config EMAILPREFIX prefix w Hk).
  run_with Hs. rewrite format_new_tag. returned.
  run_with Hr. run_with Hb. reflexivity.
Qed.

Lemma new_tag_message_witness :
  exists body,
    process_new_tag (Git.env Sample.full []) Sample.c3 "v1"
      Sample.mailer Sample.config Sample.start =
    Mailer_send (Git.env Sample.full []) Sample.mailer
      "[repo] new tag: (v1) at commit 3333333: third" "ada@example.org"
      body Sample.start.
Proof.
  eexists.
  apply (new_tag_message (Git.env Sample.full []) Sample.c3 "v1"
           Sample.mailer Sample.config Sample.start (PStr "[repo] ")
           Sample.c3 "third" "ada@example.org"); reflexivity.
Defined.

(** X14: deleting a tag.  The old id is resolved to its commit, whose
    committer becomes the reply-to address; the subject is the prefix
    followed by [delete tag: (name)] and the body gives the date read
    from the clock and the name. *)
Theorem delete_tag_message (env : Env) (rev name : string)
    (mailer : Mailer) (config : gmap string PyVal) (w : World)
    (prefix : PyVal) (target reply : string) :
  config !! EMAILPREFIX = Some prefix ->
  git_show_format_str env (rev +:+ "^{commit}") "%H" w = (Ok target, w) ->
  commiter_email env target w = (Ok reply, w) ->
  process_delete_tag env rev name mailer config w =
  Mailer_send env mailer
    (py_str prefix +:+ "delete tag: (" +:+ name +:+ ")") reply
    ("Date: " +:+ formatdate env (ticks w) +:+ nl +:+
     "Deleted tag: " +:+ name)
    (tick w).
Proof.
  intros Hk Ht Hr. unfold process_delete_tag.
  rewrite format_target. returned. run_with Ht.
  run_with (getitem_ok config EMAILPREFIX prefix w Hk).
  rewrite format_delete_tag. returned.
  run_with Hr. rewrite bind_run. unfold email_formatdate at 1.
  cbv beta iota. rewrite format_deleted_tag_body. returned.
  reflexivity.
Qed.

Lemma delete_tag_message_witness :
  process_delete_tag (Git.env Sample.full []) Sample.c3 "v1"
    Sample.mailer Sample.config Sample.start =
  Mailer_send (Git.env Sample.full []) Sample.mailer
    "[repo] delete tag: (v1)" "ada@example.org"
    ("Date: Mon, 01 Jan 2024 00:00:00 +0000" +:+ nl +:+ "Deleted tag: v1")
    (tick Sample.start).
Proof.
  apply (delete_tag_message (Git.env Sample.full []) Sample.c3 "v1"
           Sample.mailer Sample.config Sample.start (PStr "[repo] ")
           Sample.c3 "ada@example.org"); reflexivity.
Defined.

(** ** Resolving the configuration *)

Lemma nonempty_true s : s <> EmptyString -> Py.nonempty s = true.
Proof. destruct s; [congruence|reflexivity]. Qed.

Lemma int_of_empty : Py.int EmptyString = None.
Proof. reflexivity. Qed.

Section Resolve.

Variable env : Env.

Lemma normalize_prefix_run v (config : gmap string PyVal) w :
  exists config',
    normalize_prefix (<[EMAILPREFIX := PStr v]> config) w = (Ok config', w) /\
    forall key, key <> EMAILPREFIX ->
                config' !! key = (<[EMAILPREFIX := PStr v]> config) !! key.
Proof.
  unfold normalize_prefix. rewrite bind_run.
  rewrite (getitem_ok _ EMAILPREFIX _ _ (lookup_insert_eq _ _ _)).
  destruct (_ && _); eexists; (split; [reflexivity|]); intros key Hk.
  - apply lookup_insert_ne. congruence.
  - reflexivity.
Qed.

Lemma optional_flag_run default (config : gmap string PyVal) w :
  exists d,
    bool_from_str (configured env DEBUG) w = (Ok d, w) /\
    optional env DEBUG default bool_from_str config w =
    (Ok (<[DEBUG := d]> config), w).
Proof. eexists. split; reflexivity. Qed.

Lemma required_run var type_ (config : gmap string PyVal) w :
  required env var type_ config w =
  if Py.nonempty (configured env var)
  then (type_ (configured env var) ≫= fun x => mret (<[var := x]> config)) w
  else (Raise (RuntimeError ("This script needs " +:+ var +:+ " to work.")), w).
Proof.
  unfold required, git_config_get, configured. rewrite bind_run.
  unfold mret at 1, M_ret at 1. cbv beta iota.
  destruct (Py.nonempty _); reflexivity.
Qed.

Lemma required_str_run var (config : gmap string PyVal) w :
  configured env var <> EmptyString ->
  required env var str_ config w =
  (Ok (<[var := PStr (configured env var)]> config), w).
Proof.
  intros H. rewrite required_run, (nonempty_true _ H). reflexivity.
Qed.

Lemma required_missing var type_ (config : gmap string PyVal) w :
  configured env var = EmptyString ->
  required env var type_ config w =
  (Raise (RuntimeError ("This script needs " +:+ var +:+ " to work.")), w).
Proof. intros H. rewrite required_run, H. reflexivity. Qed.

Lemma required_int_run var (config : gmap string PyVal) w :
  required env var int_ config w =
  match Py.int (configured env var) with
  | Some z => (Ok (<[var := PInt z]> config), w)
  | None =>
      if Py.nonempty (configured env var)
      then (Raise (ValueError "invalid literal for int()"), w)
      else (Raise (RuntimeError ("This script needs " +:+ var +:+ " to work.")),
            w)
  end.
Proof.
  rewrite required_run. destruct (configured env var) as [|c s] eqn:E.
  - reflexivity.
  - cbn [Py.nonempty]. unfold int_. rewrite !bind_run.
    destruct (Py.int (String c s)); reflexivity.
Qed.

Lemma recipients_of_run var (config : gmap string PyVal) w :
  recipients_of env var config w =
  (Ok (<[var := PList (List.filter Py.nonempty
                         (Py.re_split_recipients (configured env var)))]>
         config), w).
Proof. reflexivity. Qed.

(** The statements of [get_config_variables] before the first
    required setting always succeed. *)
Lemma optional_settings_run w :
  exists config d,
    bool_from_str (configured env DEBUG) w = (Ok d, w) /\
    (forall rest : gmap string PyVal -> M (gmap string PyVal),
        (config ← optional env EMAILPREFIX (PStr EmptyString) str_ ∅;
         config ← normalize_prefix config;
         config ← optional env DEBUG (PBool false) bool_from_str config;
         config ← optional env POST_RECEIVE_LOGFILE (PStr "/dev/null")
                    str_ config;
         rest config) w = rest config w) /\
    config !! DEBUG = Some d /\
    config !! POST_RECEIVE_LOGFILE =
      Some (PStr (configured env POST_RECEIVE_LOGFILE)) /\
    config !! SMTP_HOST = None /\ config !! SMTP_PORT = None /\
    config !! SMTP_SENDER = None /\ config !! SMTP_SENDER_PASSWORD = None /\
    config !! MAILINGLIST = None.
Proof.
  destruct (normalize_prefix_run (configured env EMAILPREFIX) ∅ w)
    as (c1 & Hn & Hkeep).
  destruct (optional_flag_run (PBool false) c1 w) as (d & Hd & Ho).
  exists (<[POST_RECEIVE_LOGFILE :=
              PStr (configured env POST_RECEIVE_LOGFILE)]>
            (<[DEBUG := d]> c1)), d.
  split; [exact Hd|]. split.
  { intros rest. rewrite bind_run, optional_str_run.
    fold (configured env EMAILPREFIX).
    rewrite bind_run, Hn, bind_run, Ho, bind_run, optional_str_run.
    reflexivity. }
  assert (Hnone : forall key, key <> EMAILPREFIX -> c1 !! key = None).
  { intros key Hk. rewrite (Hkeep key Hk), lookup_insert_ne by congruence.
    apply lookup_empty. }
  conjs.
  - rewrite lookup_insert_ne by keys_differ. apply lookup_insert_eq.
  - apply lookup_insert_eq.
  - rewrite !lookup_insert_ne by keys_differ. apply Hnone. keys_differ.
  - rewrite !lookup_insert_ne by keys_differ. apply Hnone. keys_differ.
  - rewrite !lookup_insert_ne by keys_differ. apply Hnone. keys_differ.
  - rewrite !lookup_insert_ne by keys_differ. apply Hnone. keys_differ.
  - rewrite !lookup_insert_ne by keys_differ. apply Hnone. keys_differ.
Qed.

End Resolve.

(** X15: a required setting that is missing stops the configuration
    with a [RuntimeError] naming it.  The settings are asked for in the
    order host, port, sender, password, and the first one that is empty
    is the one reported; the world is left as it was. *)
Theorem missing_setting_is_reported (env : Env) (w : World) :
  let v := configured env in
  let needs (key : string) : Result (gmap string PyVal) * World :=
    (Raise (RuntimeError ("This script needs " +:+ key +:+ " to work.")), w) in
  (v SMTP_HOST = EmptyString ->
   get_config_variables env w = needs SMTP_HOST) /\
  (v SMTP_HOST <> EmptyString -> v SMTP_PORT = EmptyString ->
   get_config_variables env w = needs SMTP_PORT) /\
  (v SMTP_HOST <> EmptyString -> is_Some (Py.int (v SMTP_PORT)) ->
   v SMTP_SENDER = EmptyString ->
   get_config_variables env w = needs SMTP_SENDER) /\
  (v SMTP_HOST <> EmptyString -> is_Some (Py.int (v SMTP_PORT)) ->
   v SMTP_SENDER <> EmptyString -> v SMTP_SENDER_PASSWORD = EmptyString ->
   get_config_variables env w = needs SMTP_SENDER_PASSWORD).
Proof.
  intros v needs. subst v needs. unfold get_config_variables.
  destruct (optional_settings_run env w) as (c & d & _ & Hrun & _).
  rewrite Hrun. conjs.
  - intros H. rewrite bind_run, required_missing by exact H. reflexivity.
  - intros Hh Hp. rewrite bind_run, required_str_run by exact Hh.
    rewrite bind_run, required_int_run, Hp. reflexivity.
  - intros Hh [z Hp] Hs. rewrite bind_run, required_str_run by exact Hh.
    rewrite bind_run, required_int_run, Hp.
    rewrite bind_run, required_missing by exact Hs. reflexivity.
  - intros Hh [z Hp] Hs Hw. rewrite bind_run, required_str_run by exact Hh.
    rewrite bind_run, required_int_run, Hp.
    rewrite bind_run, required_str_run by exact Hs.
    rewrite bind_run, required_missing by exact Hw. reflexivity.
Qed.

Lemma missing_setting_is_reported_witness :
  get_config_variables
    (Git.env {| Git.commits := Sample.history;
                Git.settings := [("hooks.smtp-host", "mail.example.org");
                                 ("hooks.smtp-port", "465")] |} [])
    Sample.start
  = (Raise (RuntimeError "This script needs hooks.smtp-sender to work."),
     Sample.start).
Proof.
  refine (proj1 (proj2 (proj2 (missing_setting_is_reported _ Sample.start)))
            _ _ _).
  - vm_compute. discriminate.
  - exists 465. reflexivity.
  - reflexivity.
Defined.

(** X16: a port that is set but is not an integer literal stops the
    configuration with the [ValueError] of [int], after the host has
    been accepted; the world is left as it was. *)
Theorem port_must_be_an_integer (env : Env) (w : World) :
  configured env SMTP_HOST <> EmptyString ->
  configured env SMTP_PORT <> EmptyString ->
  Py.int (configured env SMTP_PORT) = None ->
  get_config_variables env w =
  (Raise (ValueError "invalid literal for int()"), w).
Proof.
  intros Hh Hne Hp. unfold get_config_variables.
  destruct (optional_settings_run env w) as (c & d & _ & Hrun & _).
  rewrite Hrun, bind_run, required_str_run by exact Hh.
  rewrite bind_run, required_int_run, Hp, (nonempty_true _ Hne).
  reflexivity.
Qed.

Lemma port_must_be_an_integer_witness :
  get_config_variables
    (Git.env {| Git.commits := Sample.history;
                Git.settings := [("hooks.smtp-host", "mail.example.org");
                                 ("hooks.smtp-port", "smtps")] |} [])
    Sample.start
  = (Raise (ValueError "invalid literal for int()"), Sample.start).
Proof.
  apply port_must_be_an_integer.
  - vm_compute. discriminate.
  - vm_compute. discriminate.
  - reflexivity.
Defined.

Lemma field_str (config : gmap string PyVal) key s w :
  config !! key = Some (PStr s) -> (getitem config key ≫= as_str) w = (Ok s, w).
Proof. intros H. rewrite bind_run, (getitem_ok _ _ _ _ H). reflexivity. Qed.

Lemma field_int (config : gmap string PyVal) key z w :
  config !! key = Some (PInt z) -> (getitem config key ≫= as_int) w = (Ok z, w).
Proof. intros H. rewrite bind_run, (getitem_ok _ _ _ _ H). reflexivity. Qed.

Lemma field_list (config : gmap string PyVal) key l w :
  config !! key = Some (PList l) ->
  (getitem config key ≫= as_list) w = (Ok l, w).
Proof. intros H. rewrite bind_run, (getitem_ok _ _ _ _ H). reflexivity. Qed.

(** X17: when host, sender and password are set and the port is an
    integer literal, the configuration is resolved without touching the
    world.  The dictionary holds the host, sender and password as read,
    the port as an integer, the log path as read (the empty string when
    the key is not set), the debug flag as [bool_from_str] gives it, and
    the mailing list split into its non-empty entries; the mailer built
    from it carries exactly these values. *)
Theorem configuration_is_resolved (env : Env) (w : World) (z : Z) :
  let v := configured env in
  let list := List.filter Py.nonempty (Py.re_split_recipients (v MAILINGLIST)) in
  v SMTP_HOST <> EmptyString ->
  Py.int (v SMTP_PORT) = Some z ->
  v SMTP_SENDER <> EmptyString ->
  v SMTP_SENDER_PASSWORD <> EmptyString ->
  exists config d,
    get_config_variables env w = (Ok config, w) /\
    bool_from_str (v DEBUG) w = (Ok d, w) /\
    config !! DEBUG = Some d /\
    config !! POST_RECEIVE_LOGFILE = Some (PStr (v POST_RECEIVE_LOGFILE)) /\
    config !! SMTP_HOST = Some (PStr (v SMTP_HOST)) /\
    config !! SMTP_PORT = Some (PInt z) /\
    config !! SMTP_SENDER = Some (PStr (v SMTP_SENDER)) /\
    config !! SMTP_SENDER_PASSWORD = Some (PStr (v SMTP_SENDER_PASSWORD)) /\
    config !! MAILINGLIST = Some (PList list) /\
    new_Mailer config w =
    (Ok {| smtp_host := v SMTP_HOST; smtp_port := z;
           sender := v SMTP_SENDER;
           sender_password := v SMTP_SENDER_PASSWORD;
           recipients := list |}, w).
Proof.
  intros v list Hh Hp Hs Hw. subst v list.
  destruct (optional_settings_run env w)
    as (c & d & Hd & Hrun & Hdebug & Hlog & _).
  eexists. exists d. split.
  { unfold get_config_variables. rewrite Hrun.
    rewrite bind_run, required_str_run by exact Hh.
    rewrite bind_run, required_int_run, Hp.
    rewrite bind_run, required_str_run by exact Hs.
    rewrite bind_run, required_str_run by exact Hw.
    rewrite recipients_of_run. reflexivity. }
  split; [exact Hd|].
  set (config := <[MAILINGLIST := _]> _).
  assert (L1 : forall (m : gmap string PyVal) k x, <[k := x]> m !! k = Some x)
    by (intros; apply lookup_insert_eq).
  assert (Hhost : config !! SMTP_HOST = Some (PStr (configured env SMTP_HOST))).
  { subst config. rewrite !lookup_insert_ne by keys_differ. apply L1. }
  assert (Hport : config !! SMTP_PORT = Some (PInt z)).
  { subst config. rewrite !lookup_insert_ne by keys_differ. apply L1. }
  assert (Hsender : config !! SMTP_SENDER =
                    Some (PStr (configured env SMTP_SENDER))).
  { subst config. rewrite !lookup_insert_ne by keys_differ. apply L1. }
  assert (Hpass : config !! SMTP_SENDER_PASSWORD =
                  Some (PStr (configured env SMTP_SENDER_PASSWORD))).
  { subst config. rewrite !lookup_insert_ne by keys_differ. apply L1. }
  assert (Hlist : config !! MAILINGLIST =
                  Some (PList (List.filter Py.nonempty
                                 (Py.re_split_recipients
                                    (configured env MAILINGLIST))))).
  { subst config. apply L1. }
  conjs; try assumption.
  - subst config. rewrite !lookup_insert_ne by keys_differ. exact Hdebug.
  - subst config. rewrite !lookup_insert_ne by keys_differ. exact Hlog.
  - unfold new_Mailer.
    rewrite bind_run, (field_str _ _ _ _ Hhost).
    rewrite bind_run, (field_int _ _ _ _ Hport).
    rewrite bind_run, (field_str _ _ _ _ Hsender).
    rewrite bind_run, (field_str _ _ _ _ Hpass).
    rewrite bind_run, (field_list _ _ _ _ Hlist).
    reflexivity.
Qed.

Lemma configuration_is_resolved_witness :
  exists config,
    get_config_variables (Git.env Sample.full []) Sample.start =
      (Ok config, Sample.start) /\
    new_Mailer config Sample.start = (Ok Sample.mailer, Sample.start).
Proof.
  destruct (configuration_is_resolved (Git.env Sample.full []) Sample.start
              465) as (config & d & Hc & _ & _ & _ & _ & _ & _ & _ & _ & Hm).
  - vm_compute. discriminate.
  - reflexivity.
  - vm_compute. discriminate.
  - vm_compute. discriminate.
  - exists config. split; [exact Hc|exact Hm].
Defined.

(** ** The debug flag and the log file *)

(** X18: the debug setting is on exactly when its value is not empty
    and does not begin with [f], [F] or [0]; [bool_from_str] never
    fails and leaves the world alone. *)
Theorem debug_flag_truth (s : string) (w : World) :
  exists d,
    bool_from_str s w = (Ok d, w) /\
    (truthy d = true <->
     exists c r, s = String c r /\
                 c <> "f"%char /\ c <> "F"%char /\ c <> "0"%char).
Proof.
  destruct s as [|c r].
  - eexists. split; [reflexivity|]. split; [discriminate|].
    intros (c & r & H & _). discriminate.
  - eexists. split; [reflexivity|]. cbn [truthy Py.contains_char].
    rewrite negb_true_iff, !orb_false_iff, !Ascii.eqb_neq. split.
    + intros (Hf & HF & H0 & _). exists c, r. conjs; congruence.
    + intros (c' & r' & [= <- <-] & Hf & HF & H0). conjs; congruence.
Qed.

Lemma silent_git_config_get env name fallback :
  silent (git_config_get env name fallback).
Proof. intros w. reflexivity. Qed.

Lemma silent_str_ s : silent (str_ s).
Proof. intros w. reflexivity. Qed.

Lemma silent_bool_from_str s : silent (bool_from_str s).
Proof. intros w. reflexivity. Qed.

Lemma silent_int_ s : silent (int_ s).
Proof. unfold int_. silent_steps. Qed.

Lemma silent_time_strftime env : silent (time_strftime env).
Proof. intros w. reflexivity. Qed.

#[export] Hint Resolve silent_git_config_get silent_str_ silent_bool_from_str
  silent_int_ silent_time_strftime : silent.

Lemma silent_get_config_variables env : silent (get_config_variables env).
Proof.
  unfold get_config_variables, optional, required, recipients_of,
    normalize_prefix.
  repeat first
    [ apply silent_bind; [| intros ?]
    | match goal with
      | |- silent (match ?v with _ => _ end) => destruct v
      | |- silent (if ?c then _ else _) => destruct c
      end
    | solve [eauto with silent] ].
Qed.

Lemma silent_new_Mailer config : silent (new_Mailer config).
Proof.
  unfold new_Mailer, as_str, as_int, as_list.
  repeat first
    [ apply silent_bind; [| intros ?]
    | match goal with
      | |- silent (match ?v with _ => _ end) => destruct v
      end
    | solve [eauto with silent] ].
Qed.

#[export] Hint Resolve silent_get_config_variables silent_new_Mailer : silent.

Lemma smtp_logs_to path ev : is_smtp ev -> logs_to path ev.
Proof. destruct ev; simpl; tauto. Qed.

Lemma one_session_smtp self evs : one_session self evs -> Forall is_smtp evs.
Proof. intros [H _]. exact H. Qed.

Lemma forall_app_closed {A} (P : A -> Prop) (x y : list A) :
  Forall P x -> Forall P y -> Forall P (x ++ y)%list.
Proof. intros. apply Forall_app. split; assumption. Qed.

Lemma post_receive_smtp env mailer lines config :
  yields (Forall is_smtp) (post_receive env mailer lines config).
Proof.
  unfold post_receive. apply yields_for_each.
  - constructor.
  - apply forall_app_closed.
  - intros line. eapply yields_weaken; [apply one_session_smtp|].
    apply line_one_session.
Qed.

Lemma yields_file_write (Q : list Event -> Prop) path text :
  Q [EvWrite path text] -> yields Q (file_write path text).
Proof. apply yields_emit. Qed.

Lemma yields_try_except {A} (Q : list Event -> Prop) (body : M A)
    (handler : PyExc -> M A) :
  (forall x y, Q x -> Q y -> Q (x ++ y)%list) ->
  yields Q body -> (forall e, yields Q (handler e)) ->
  yields Q (try_except body handler).
Proof.
  intros Happ Hb Hh w. unfold try_except.
  destruct (Hb w) as (e1 & H1 & Q1).
  destruct (body w) as [[a|e] w1]; simpl in H1.
  - exists e1. split; [exact H1|exact Q1].
  - destruct (Hh e w1) as (e2 & H2 & Q2). exists (e1 ++ e2)%list.
    rewrite H2, H1, app_assoc. split; [reflexivity|auto].
Qed.

Lemma for_each_write path lines w :
  for_each lines (file_write path) w =
  (Ok tt, {| trace := trace w ++ List.map (EvWrite path) lines;
             ticks := ticks w |}).
Proof.
  revert w. induction lines as [|l lines IH]; intros w.
  - simpl. rewrite app_nil_r. destruct w; reflexivity.
  - cbn [for_each]. rewrite bind_run. unfold file_write at 1, do_emit.
    rewrite IH. simpl. rewrite <- app_assoc. reflexivity.
Qed.

Section Log.

Variable env : Env.
Variable path : string.

Lemma handler_logs e :
  yields (Forall (logs_to path)) (main_handler env path e).
Proof.
  unfold main_handler.
  apply yields_after_silent; [auto with silent|constructor|intros t].
  apply yields_bind; [apply forall_app_closed| |intros _];
    apply yields_file_write; repeat constructor.
Qed.

Lemma body_logs : yields (Forall (logs_to path)) (main_body env path).
Proof.
  unfold main_body.
  apply yields_after_silent; [auto with silent|constructor|intros config].
  apply yields_after_silent; [auto with silent|constructor|intros debug].
  apply yields_bind; [apply forall_app_closed| |intros _].
  - destruct (truthy debug).
    + apply yields_after_silent; [auto with silent|constructor|intros t].
      apply yields_bind; [apply forall_app_closed| |intros _].
      * apply yields_file_write. repeat constructor.
      * apply yields_for_each; [constructor|apply forall_app_closed|].
        intros line. apply yields_file_write. repeat constructor.
    + apply yields_silent; [apply silent_ret|constructor].
  - apply yields_after_silent; [auto with silent|constructor|intros mailer].
    eapply yields_weaken; [|apply post_receive_smtp].
    intros evs H. eapply Forall_impl; [exact H|].
    intros ev. apply smtp_logs_to.
Qed.

End Log.

Lemma main_run env w w0 :
  open_a env (configured env POST_RECEIVE_LOGFILE) w = (Ok tt, w0) ->
  w0 = emit (EvOpen (configured env POST_RECEIVE_LOGFILE)) w /\
  main env w =
  finally
    (try_except
       (main_body env (configured env POST_RECEIVE_LOGFILE))
       (main_handler env (configured env POST_RECEIVE_LOGFILE)))
    (do_emit (EvClose (configured env POST_RECEIVE_LOGFILE))) w0.
Proof.
  intros Hopen. split.
  - unfold open_a in Hopen.
    destruct (configured env POST_RECEIVE_LOGFILE); [discriminate|].
    rewrite bind_run in Hopen.
    destruct (open_append env _); [discriminate|].
    simpl in Hopen. injection Hopen as <-. reflexivity.
  - unfold main, git_config_get. rewrite bind_run.
    unfold mret at 1, M_ret at 1. fold (configured env POST_RECEIVE_LOGFILE).
    rewrite bind_run, Hopen. reflexivity.
Qed.

(** X19: the log file is the only file [main] touches.  Once it is
    open, the trace of a run is the opening of the log, then writes to
    the log and SMTP events, then the closing of the log as the last
    event, on the normal path as on the path through the handler. *)
Theorem log_is_opened_once_and_closed_last (env : Env) (w w0 : World) :
  let path := configured env POST_RECEIVE_LOGFILE in
  open_a env path w = (Ok tt, w0) ->
  exists evs,
    trace (snd (main env w)) =
      (trace w ++ EvOpen path :: evs ++ [EvClose path])%list /\
    Forall (logs_to path) evs.
Proof.
  intros path Hopen. destruct (main_run env w w0 Hopen) as [-> Hmain].
  fold path in Hmain. rewrite Hmain. unfold finally.
  destruct (yields_try_except (Forall (logs_to path))
              (main_body env path) (main_handler env path)
              (forall_app_closed _) (body_logs env path)
              (handler_logs env path) (emit (EvOpen path) w))
    as (evs & Ht & Hq).
  destruct (try_except _ _ _) as [r w1]. simpl in Ht.
  exists evs. split; [|exact Hq]. simpl. rewrite Ht. simpl.
  rewrite <- !app_assoc. reflexivity.
Qed.

Lemma log_is_opened_once_and_closed_last_witness :
  exists evs,
    trace (snd (main (Git.env Sample.full
                        [Sample.line Sample.c1 Sample.c4 "refs/heads/main"])
                  Sample.start)) =
      (EvOpen "/var/log/hook.log" :: evs ++ [EvClose "/var/log/hook.log"])%list
    /\ Forall (logs_to "/var/log/hook.log") evs.
Proof.
  exact (log_is_opened_once_and_closed_last
           (Git.env Sample.full
              [Sample.line Sample.c1 Sample.c4 "refs/heads/main"])
           Sample.start
           {| trace := [EvOpen "/var/log/hook.log"]; ticks := 0 |} eq_refl).
Defined.

(** X20: what the debug setting adds to the log.  When the
    configuration resolves with the debug flag on, the statements under
    [try] first write a timestamp line and then every line of standard
    input as it was read, in order, before any SMTP event; with the
    flag off they write nothing. *)
Theorem debug_copies_input_to_log (env : Env) (path : string) (w : World)
    (config : gmap string PyVal) (d : PyVal) :
  get_config_variables env w = (Ok config, w) ->
  config !! DEBUG = Some d ->
  exists evs,
    Forall is_smtp evs /\
    trace (snd (main_body env path w)) =
      (trace w
       ++ (if truthy d
           then EvWrite path (strftime env (ticks w) +:+ nl)
                  :: List.map (EvWrite path) (stdin_lines env)
           else [])
       ++ evs)%list.
Proof.
  intros Hc Hd. unfold main_body. run_with Hc.
  run_with (getitem_ok config DEBUG d w Hd).
  assert (Hrest : forall w1,
    exists evs, Forall is_smtp evs /\
      trace (snd ((new_Mailer config ≫= fun mailer =>
                     post_receive env mailer (stdin_lines env) config) w1)) =
        (trace w1 ++ evs)%list).
  { intros w1.
    destruct (yields_after_silent (Forall is_smtp) (new_Mailer config)
                (fun mailer => post_receive env mailer (stdin_lines env) config)
                (silent_new_Mailer config) ltac:(constructor)
                (fun mailer => post_receive_smtp env mailer _ config) w1)
      as (evs & Ht & Hq).
    exists evs. split; assumption. }
  destruct (truthy d).
  - unfold time_strftime at 1. rewrite !bind_run. cbv beta iota.
    unfold file_write at 1, do_emit at 1. cbv beta iota.
    rewrite for_each_write.
    match goal with
    | |- context [(new_Mailer config ≫= _) ?w1] =>
        destruct (Hrest w1) as (evs & Hq & Ht)
    end.
    exists evs. split; [exact Hq|]. rewrite Ht. simpl.
    rewrite <- !app_assoc. reflexivity.
  - rewrite bind_run. unfold mret at 1, M_ret at 1. cbv beta iota.
    destruct (Hrest w) as (evs & Hq & Ht). exists evs.
    split; [exact Hq|]. rewrite Ht. reflexivity.
Qed.

Lemma debug_copies_input_to_log_witness :
  let input := [Sample.line Sample.c1 Sample.c2 "refs/heads/main"] in
  let env := Git.env {| Git.commits := Sample.history;
                        Git.settings := ("hooks.debug", "true") :: Sample.smtp |}
               input in
  exists evs,
    Forall is_smtp evs /\
    trace (snd (main_body env "/tmp/hook.log" Sample.start)) =
      (EvWrite "/tmp/hook.log" ("2024-01-01 00:00:00" +:+ nl)
         :: List.map (EvWrite "/tmp/hook.log") input ++ evs)%list.
Proof.
  intros input env.
  refine (debug_copies_input_to_log env "/tmp/hook.log" Sample.start _
            (PBool true) _ _).
  - reflexivity.
  - reflexivity.
Defined.

(** X22: a configuration that cannot be resolved is fatal for the run
    and is logged.  With the log open, when [get_config_variables]
    raises, [main] appends the timestamp line and the trace of the
    exception to the log, closes it and returns; no line of the input
    is processed and no SMTP event occurs. *)
Theorem configuration_error_is_logged (env : Env) (w w0 : World) (e : PyExc) :
  let path := configured env POST_RECEIVE_LOGFILE in
  open_a env path w = (Ok tt, w0) ->
  get_config_variables env w0 = (Raise e, w0) ->
  main env w =
  (Ok tt,
   {| trace := trace w ++ [EvOpen path;
                           EvWrite path (strftime env (ticks w) +:+ nl);
                           EvWrite path (print_exc env e);
                           EvClose path];
      ticks := S (ticks w) |}).
Proof.
  intros path Hopen Hc. destruct (main_run env w w0 Hopen) as [Hw Hmain].
  fold path in Hmain, Hw. rewrite Hmain. unfold finally, try_except.
  assert (Hbody : main_body env path w0 = (Raise e, w0)).
  { unfold main_body. apply bind_raise. exact Hc. }
  rewrite Hbody. unfold main_handler, file_write. rewrite !bind_run.
  subst w0. simpl. unfold emit. simpl. rewrite <- !app_assoc. reflexivity.
Qed.

Lemma configuration_error_is_logged_witness :
  main (Git.env {| Git.commits := Sample.history;
                   Git.settings :=
                     [("hooks.post-receive-logfile", "/var/log/hook.log");
                      ("hooks.smtp-host", "mail.example.org")] |}
          [Sample.line Sample.c1 Sample.c4 "refs/heads/main"]) Sample.start
  = (Ok tt,
     {| trace := [EvOpen "/var/log/hook.log";
                  EvWrite "/var/log/hook.log" ("2024-01-01 00:00:00" +:+ nl);
                  EvWrite "/var/log/hook.log"
                    "Traceback (most recent call last):";
                  EvClose "/var/log/hook.log"];
        ticks := 1 |}).
Proof.
  refine (configuration_error_is_logged _ Sample.start
            {| trace := [EvOpen "/var/log/hook.log"]; ticks := 0 |}
            (RuntimeError "This script needs hooks.smtp-port to work.") _ _);
    reflexivity.
Defined.

(** ** Integers in and out of text *)

Lemma of_uint_acc_value d acc :
  Npos (Pos.of_uint_acc d acc) = digits_value (Npos acc) d.
Proof.
  revert acc. induction d; intros acc; cbn [Pos.of_uint_acc digits_value];
    [reflexivity|..]; rewrite IHd; f_equal; lia.
Qed.

Lemma of_uint_value d : Pos.of_uint d = digits_value 0 d.
Proof.
  induction d; cbn [Pos.of_uint digits_value]; try reflexivity;
    try apply of_uint_acc_value.
  exact IHd.
Qed.

Lemma int_body_digits prev acc d :
  d <> Decimal.Nil \/ prev = true ->
  Py.int_body prev acc (NilEmpty.string_of_uint d) =
  Some (digits_value acc d).
Proof.
  revert prev acc. induction d; intros prev acc H;
    cbn [NilEmpty.string_of_uint Py.int_body digits_value];
    [destruct H as [H| ->]; [congruence|reflexivity]|..];
    match goal with
    | |- context [Py.digit_val ?c] =>
        let v := eval vm_compute in (Py.digit_val c) in
        change (Py.digit_val c) with v
    end;
    cbv iota beta; rewrite IHd by (right; reflexivity);
    f_equal; f_equal; lia.
Qed.

Lemma digits_free d : free_of Py.is_space (NilEmpty.string_of_uint d) = true.
Proof. induction d; simpl; [reflexivity|..]; exact IHd. Qed.

Lemma lstrip_head c s : Py.is_space c = false -> Py.lstrip (String c s) = String c s.
Proof. intros H. simpl. rewrite H. reflexivity. Qed.

Lemma rstrip_line s :
  free_of Py.is_space s = true -> Py.rstrip (s +:+ nl) = s /\ Py.rstrip s = s.
Proof.
  induction s as [|c s IH]; intros H; [split; reflexivity|].
  simpl in H. apply andb_true_iff in H as [Hc Hs].
  apply negb_true_iff in Hc. destruct (IH Hs) as [H1 H2].
  rewrite append_cons. cbn [Py.rstrip]. rewrite H1, H2, Hc.
  destruct s; split; reflexivity.
Qed.

Lemma strip_line s c :
  Py.is_space c = false -> free_of Py.is_space s = true ->
  Py.strip (String c s +:+ nl) = String c s /\
  Py.strip (String c s) = String c s.
Proof.
  intros Hc Hs. unfold Py.strip.
  assert (Hf : free_of Py.is_space (String c s) = true)
    by (simpl; rewrite Hc, Hs; reflexivity).
  rewrite append_cons, !lstrip_head by exact Hc.
  rewrite <- append_cons. apply rstrip_line, Hf.
Qed.

Lemma digits_head d :
  d <> Decimal.Nil ->
  exists c s,
    NilEmpty.string_of_uint d = String c s /\
    Py.is_space c = false /\ free_of Py.is_space s = true /\
    c <> "-"%char /\ c <> "+"%char.
Proof.
  intros Hd. destruct d; [congruence|..];
    (eexists; eexists; split; [reflexivity|]);
    (split; [reflexivity|]); (split; [apply digits_free|]);
    split; discriminate.
Qed.

Lemma string_of_pos_digits p :
  exists c s,
    NilZero.string_of_uint (Pos.to_uint p) = String c s /\
    Py.is_space c = false /\ free_of Py.is_space s = true /\
    c <> "-"%char /\ c <> "+"%char /\
    Py.int_body false 0 (String c s) = Some (Npos p).
Proof.
  pose proof (DecimalPos.Unsigned.of_to p) as Hp.
  rewrite of_uint_value in Hp.
  assert (Hnil : Pos.to_uint p <> Decimal.Nil).
  { intros E. rewrite E in Hp. discriminate Hp. }
  assert (Hz : NilZero.string_of_uint (Pos.to_uint p) =
               NilEmpty.string_of_uint (Pos.to_uint p)).
  { destruct (Pos.to_uint p); [congruence|..]; reflexivity. }
  destruct (digits_head _ Hnil) as (c & s & Hs & Hc & Hf & Hm & Hpl).
  exists c, s. rewrite Hz. conjs; try assumption.
  rewrite <- Hs, <- Hp. apply int_body_digits. left. exact Hnil.
Qed.

Lemma int_of_str (z : Z) :
  Py.int (Py.str_of_Z z +:+ nl) = Some z /\ Py.int (Py.str_of_Z z) = Some z.
Proof.
  unfold Py.str_of_Z, Py.int. destruct z as [|p|p]; [split; reflexivity|..];
    cbn [Z.to_int NilZero.string_of_int];
    destruct (string_of_pos_digits p)
      as (c & s & -> & Hc & Hs & Hm & Hp & Hv).
  - destruct (strip_line s c Hc Hs) as [-> ->].
    assert (Hgen : match String c s with
                   | String "-" r =>
                       option_map (fun n => - Z.of_N n)
                         (Py.int_body false 0%N r)
                   | String "+" r =>
                       option_map Z.of_N (Py.int_body false 0%N r)
                   | r => option_map Z.of_N (Py.int_body false 0%N r)
                   end = Some (Z.pos p)).
    { destruct c as [[] [] [] [] [] [] [] []];
        try congruence; rewrite Hv; reflexivity. }
    split; exact Hgen.
  - assert (Hf : free_of Py.is_space (String c s) = true)
      by (simpl; rewrite Hc, Hs; reflexivity).
    destruct (strip_line (String c s) "-" eq_refl Hf) as [-> ->].
    rewrite Hv. split; reflexivity.
Qed.

(** X21: [int] reads back what [str] writes.  When git prints the
    count of a range as a decimal number followed by a newline,
    [num_commits_in_range] returns that number, whatever its size. *)
Theorem count_is_read_back (env : Env) (old_rev new_rev : string) (n : Z)
    (w : World) :
  run env ["git"; "rev-list"; "--count"; old_rev +:+ ".." +:+ new_rev] =
  Git.exited 0 (Py.str_of_Z n +:+ nl) ->
  num_commits_in_range env old_rev new_rev w = (Ok n, w).
Proof.
  intros H. rewrite num_commits_in_range_run, H. cbv zeta. simpl.
  rewrite (proj1 (int_of_str n)). reflexivity.
Qed.

Lemma count_is_read_back_witness :
  num_commits_in_range (Git.env Sample.full []) Sample.c1 Sample.c4
    Sample.start = (Ok 3, Sample.start).
Proof.
  apply (count_is_read_back (Git.env Sample.full []) Sample.c1 Sample.c4 3).
  reflexivity.
Defined.
